(** * RAGHandler: ingestion, persistence and query paths of rag_app

    A shallow embedding of [rag_app/app/rag_handler.py].  The handler is a
    thin orchestration layer over third-party components (document loaders,
    the text splitter, the FAISS vector store, the retrieval chain).  Those
    components are kept abstract, as the fields of a [Library] record; the
    control flow of the handler itself (path arithmetic, extension dispatch,
    the per-file loop, every [try]/[except], the create/add/save sequence)
    is transcribed statement by statement in a small state, output and
    exception monad. *)

From Stdlib Require Import ZArith Ascii String.
From stdpp Require Import gmap strings list fin_maps pretty.

Local Open Scope Z_scope.

(** ** Python strings

    A string stands for its UTF-8 encoding.  [str.lower] is modelled on the
    ASCII range: [A]-[Z] are folded and every other byte is kept, which is
    what [str.lower] does to ASCII text.  On text with other letters the two
    differ in the value they return; no such letter lower-cases to a letter
    of [pdf], [txt] or [docx], so the loader that is selected is the same. *)

Module PyStr.

Definition chars : Type := list ascii.

Definition of_string (s : string) : chars := list_ascii_of_string s.
Definition to_string (p : chars) : string := string_of_list_ascii p.

(** [c.lower()] for a single character: [A-Z] is shifted to [a-z]. *)
Definition lower_char (c : ascii) : ascii :=
  let n := nat_of_ascii c in
  if ((65 <=? n) && (n <=? 90))%nat then ascii_of_nat (n + 32) else c.

Definition lower_chars (p : chars) : chars := map lower_char p.

(** [s.lower()] for ASCII [s] *)
Definition lower (s : string) : string := to_string (lower_chars (of_string s)).


(** [p.rfind(c)]: index of the last occurrence of [c], or [-1]. *)
Fixpoint rfind_from (c : ascii) (p : chars) (i : Z) (found : Z) : Z :=
  match p with
  | [] => found
  | x :: p' => rfind_from c p' (i + 1) (if Ascii.eqb x c then i else found)
  end.

Definition rfind (c : ascii) (p : chars) : Z := rfind_from c p 0 (-1).

(** [p[:i]] and [p[i:]] for [0 <= i]. *)
Definition slice_to (i : Z) (p : chars) : chars := take (Z.to_nat i) p.
Definition slice_from (i : Z) (p : chars) : chars := drop (Z.to_nat i) p.

(** [p[i:i+1]] for [0 <= i]: one character, or empty past the end. *)
Definition slice1 (i : Z) (p : chars) : chars := take 1 (drop (Z.to_nat i) p).

Definition chars_eqb (a b : chars) : bool := bool_decide (a = b).

(** [p.startswith(c)], [p.endswith(c)] for a one-character [c]. *)
Definition startswith (c : ascii) (p : chars) : bool :=
  match p with x :: _ => Ascii.eqb x c | [] => false end.

Definition endswith (c : ascii) (p : chars) : bool :=
  match last p with Some x => Ascii.eqb x c | None => false end.

(** [p.rstrip(c)] *)
Fixpoint rstrip (c : ascii) (p : chars) : chars :=
  match p with
  | [] => []
  | x :: p' =>
      match rstrip c p' with
      | [] => if Ascii.eqb x c then [] else [x]
      | r => x :: r
      end
  end.

End PyStr.

(** ** [os.path] (posixpath) *)

Module OsPath.
Import PyStr.

Definition sep : ascii := "/"%char.
Definition extsep : ascii := "."%char.

(** The [while filenameIndex < dotIndex] loop of [genericpath._splitext];
    [n] is the number of iterations left, [dotIndex - filenameIndex]. *)
Fixpoint _splitext_loop (p : chars) (dotIndex filenameIndex : Z) (n : nat)
  : option (chars * chars) :=
  match n with
  | O => None
  | S n' =>
      if negb (chars_eqb (slice1 filenameIndex p) [extsep])
      then Some (slice_to dotIndex p, slice_from dotIndex p)
      else _splitext_loop p dotIndex (filenameIndex + 1) n'
  end.

Definition _splitext (p : chars) : chars * chars :=
  let sepIndex := rfind sep p in
  let dotIndex := rfind extsep p in
  if Z.ltb sepIndex dotIndex then
    let filenameIndex := sepIndex + 1 in
    match _splitext_loop p dotIndex filenameIndex
            (Z.to_nat (dotIndex - filenameIndex)) with
    | Some r => r
    | None => (p, [])
    end
  else (p, []).

(** [os.path.splitext(p)] *)
Definition splitext (p : string) : string * string :=
  let r := _splitext (of_string p) in (to_string (fst r), to_string (snd r)).

(** [os.path.dirname(p)] *)
Definition dirname_chars (p : chars) : chars :=
  let i := rfind sep p + 1 in
  let head := slice_to i p in
  if negb (chars_eqb head []) && negb (chars_eqb head (replicate (length head) sep))
  then rstrip sep head
  else head.

Definition dirname (p : string) : string := to_string (dirname_chars (of_string p)).

(** One step of the [for b in p] loop of [os.path.join(a, *p)]. *)
Definition join_step (path b : chars) : chars :=
  if startswith sep b then b
  else if chars_eqb path [] || endswith sep path then path ++ b
  else path ++ sep :: b.

Definition join (a : string) (p : list string) : string :=
  to_string (foldl join_step (of_string a) (of_string <$> p)).

End OsPath.

(** ** Values crossing the library boundary *)

(** A Python [Exception] instance, identified by its message. *)
Definition exn : Type := string.

(** Outcome of a call that may raise. *)
Inductive result (A : Type) : Type :=
| Ok (a : A)
| Raise (e : exn).
Arguments Ok {A} a.
Arguments Raise {A} e.

(** A langchain [Document]; chunks are documents too. *)
Record Document := mkDocument {
  page_content : string;
  metadata : list (string * string)
}.

(** The loader classes the handler can instantiate. *)
Inductive loader := PyPDFLoader | TextLoader | Docx2txtLoader.

(** What [save_local] leaves behind: the serialised index, or an exception
    together with whatever was written at the target before it was raised
    ([None]: the target was not touched). *)
Inductive save_outcome (B : Type) : Type :=
| Saved (b : B)
| SaveFailed (left_behind : option B) (e : exn).
Arguments Saved {B} b.
Arguments SaveFailed {B} left_behind e.

(** Values stored in the response dictionary of the QA chain. *)
Inductive pyval := PyNone | PyStr (s : string).

(** Truth value of [if answer:]. *)
Definition truthy (v : pyval) : bool :=
  match v with
  | PyNone => false
  | PyStr s => negb (String.eqb s "")
  end.

(** [str(answer)] *)
Definition py_str (v : pyval) : string :=
  match v with
  | PyNone => "None"
  | PyStr s => s
  end.

(** The third-party components the handler drives.  [add_documents]
    mutates the index object in place, so it returns the object as it is
    after the call together with the exception it raised, if any. *)
Record Library := mkLibrary {
  Index : Type;
  Blob : Type;
  Retriever : Type;
  Chain : Type;
  (* document_loaders: [Loader(file_path).load()] on the file's contents *)
  loader_load : loader → string → Blob → result (list Document);
  (* RecursiveCharacterTextSplitter(chunk_size, chunk_overlap).split_documents *)
  split_documents : nat → nat → list Document → result (list Document);
  (* FAISS *)
  from_documents : list Document → result Index;
  add_documents : Index → list Document → Index * option exn;
  save_local : Index → save_outcome Blob;
  load_local : Blob → result Index;
  similarity_search : Index → string → list Document;
  as_retriever : Index → result Retriever;
  (* os.makedirs(path, exist_ok=True) *)
  makedirs : string → option exn;
  (* RetrievalQA *)
  from_chain_type : Retriever → result Chain;
  invoke : Chain → string → result (gmap string pyval)
}.

(** ** Observable behaviour: console output and library calls *)

(** One constructor per [print] statement of [rag_handler.py]. *)
Inductive message :=
| MsgLoaded (path : string)
| MsgLoadError (path : string) (e : exn)
| MsgNoStore (path : string)
| MsgSaved (path : string)
| MsgSaveError (path : string) (e : exn)
| MsgProcessing (file_path : string)
| MsgNotFound (file_path : string)
| MsgUnsupported (file_ext file_path : string)
| MsgSplit (file_path : string) (n : nat)
| MsgFileError (file_path : string) (e : exn)
| MsgNoDocuments
| MsgCreated
| MsgCreateError (e : exn)
| MsgAdded
| MsgAddError (e : exn)
| MsgComplete
| MsgNotInitialized
| MsgNoAnswer
| MsgQAError (e : exn).

(** Calls into the vector store and the file system that the handler makes. *)
Inductive call :=
| CFromDocuments (chunks : list Document)
| CAddDocuments (chunks : list Document)
| CMakedirs (path : string)
| CSaveLocal (path : string)
| CLoadLocal (path : string).

Inductive event :=
| Print (m : message)
| Call (c : call).

(** The library calls of a run, in the order they were made. *)
Definition calls (out : list event) : list call :=
  omap (λ ev, match ev with Call c => Some c | Print _ => None end) out.

(** The calls that build or extend the search structure. *)
Definition is_mutation (c : call) : bool :=
  match c with
  | CFromDocuments _ | CAddDocuments _ => true
  | _ => false
  end.


(** Module constants of [rag_handler.py]. *)
Definition VECTOR_STORE_PATH : string := "vector_store/faiss_index".
Definition UPLOAD_DIRECTORY : string := "uploads".

(** Arguments of [RecursiveCharacterTextSplitter(...)] in [__init__]. *)
Definition chunk_size : nat := 1000.
Definition chunk_overlap : nat := 200.

(** The [if]/[elif] chain on [file_ext]. *)
Definition select_loader (file_ext : string) : option loader :=
  if String.eqb file_ext ".pdf" then Some PyPDFLoader
  else if String.eqb file_ext ".txt" then Some TextLoader
  else if String.eqb file_ext ".docx" then Some Docx2txtLoader
  else None.

(** [os.path.splitext(file_path)[1].lower()] *)
Definition file_ext_of (file_path : string) : string :=
  PyStr.lower (snd (OsPath.splitext file_path)).

(** ** The handler *)

(** The handler object together with the file system it works on.
    [vector_store] is [self.vector_store]; [disk] maps a path to the
    contents stored there (an uploaded file, or a saved index). *)
Record state (L : Library) := mkState {
  vector_store : option (Index L);
  disk : gmap string (Blob L)
}.
Arguments mkState {L} vector_store disk.
Arguments vector_store {L} s.
Arguments disk {L} s.

(** A Python statement: it runs in a state, emits events, and either
    completes with a value or raises.  Effects performed before an
    exception is raised stay in place. *)
Definition M (L : Library) (A : Type) : Type :=
  state L → state L * list event * result A.

Section Monad.
Context {L : Library}.

Definition ret {A} (a : A) : M L A := λ st, (st, [], Ok a).

Definition bind {A B} (m : M L A) (k : A → M L B) : M L B :=
  λ st,
    match m st with
    | (st1, out1, Ok a) =>
        match k a st1 with
        | (st2, out2, r) => (st2, out1 ++ out2, r)
        end
    | (st1, out1, Raise e) => (st1, out1, Raise e)
    end.

(** [try: body / except Exception as e: handler] *)
Definition try_except {A} (body : M L A) (handler : exn → M L A) : M L A :=
  λ st,
    match body st with
    | (st1, out1, Ok a) => (st1, out1, Ok a)
    | (st1, out1, Raise e) =>
        match handler e st1 with
        | (st2, out2, r) => (st2, out1 ++ out2, r)
        end
    end.

(** [print(text)]: the line is appended to the output.  Writing to the
    console is taken to succeed: a [print] that raises because the stream
    cannot encode the text is not modelled. *)
Definition print (m : message) : M L unit := λ st, (st, [Print m], Ok tt).

(** A library call: journalled, then its outcome. *)
Definition called {A} (c : call) (r : result A) : M L A :=
  λ st, (st, [Call c], r).

Definition lift {A} (r : result A) : M L A := λ st, (st, [], r).

Definition get_vector_store : M L (option (Index L)) :=
  λ st, (st, [], Ok (vector_store st)).

Definition set_vector_store (v : option (Index L)) : M L unit :=
  λ st, (mkState v (disk st), [], Ok tt).

Definition read_disk (path : string) : M L (option (Blob L)) :=
  λ st, (st, [], Ok (disk st !! path)).

(** [os.path.exists(path)] *)
Definition os_path_exists (path : string) : M L bool :=
  λ st, (st, [], Ok (bool_decide (is_Some (disk st !! path)))).

End Monad.

#[global] Instance M_ret {L : Library} : MRet (M L) := λ A, ret.
#[global] Instance M_bind {L : Library} : MBind (M L) := λ A B k m, bind m k.

Section RAGHandler.
Context {L : Library}.

(** [__file__] of the module [rag_handler]. *)
Variable module_file : string.

(** [os.path.join(os.path.dirname(__file__), '..', VECTOR_STORE_PATH)] *)
Definition full_vector_store_path : string :=
  OsPath.join (OsPath.dirname module_file) [".."%string; VECTOR_STORE_PATH].

(** [FAISS.load_local(path, self.embeddings, ...)] reads what is stored
    at [path]. *)
Definition FAISS_load_local (path : string) : M L (Index L) :=
  stored ← read_disk path;
  called (CLoadLocal path)
    match stored with
    | Some b => load_local L b
    | None => Raise "RuntimeError: could not open index for reading"
    end.

Definition _load_vector_store : M L unit :=
  let full_vector_store_path := full_vector_store_path in
  found ← os_path_exists full_vector_store_path;
  if found : bool then
    try_except
      (vs ← FAISS_load_local full_vector_store_path;
       set_vector_store (Some vs) ;;
       print (MsgLoaded full_vector_store_path))
      (λ e,
        print (MsgLoadError full_vector_store_path e) ;;
        set_vector_store None)
  else print (MsgNoStore full_vector_store_path).

(** Lines 34-35 of [RAGHandler(openai_api_key)]: the attribute is set to
    [None], then the stored index is loaded.  The three constructor calls of
    lines 29-33, which come first and build the embeddings, the splitter and
    the chat model, are not part of it. *)
Definition __init__ : M L unit :=
  set_vector_store None ;;
  _load_vector_store.

(** [os.makedirs(path, exist_ok=True)]: the call and its outcome.  [disk]
    maps the paths the handler reads to what is stored there; the
    directories the call creates are not entries of it. *)
Definition os_makedirs (path : string) : M L unit :=
  called (CMakedirs path)
    match makedirs L path with
    | None => Ok tt
    | Some e => Raise e
    end.

(** [vs.save_local(path)]: on success the serialised index replaces what
    was at [path].  The folder [path] and the two files the library writes in
    it are one entry of [disk], under [path], which is the argument
    [load_local] is later given. *)
Definition FAISS_save_local (vs : Index L) (path : string) : M L unit :=
  λ st,
    match save_local L vs with
    | Saved b =>
        (mkState (vector_store st) (<[path := b]> (disk st)),
         [Call (CSaveLocal path)], Ok tt)
    | SaveFailed left_behind e =>
        (mkState (vector_store st)
           match left_behind with
           | Some g => <[path := g]> (disk st)
           | None => disk st
           end,
         [Call (CSaveLocal path)], Raise e)
    end.

Definition _save_vector_store : M L unit :=
  v ← get_vector_store;
  match v with
  | Some vs =>
      let full_vector_store_path := full_vector_store_path in
      try_except
        (os_makedirs (OsPath.dirname full_vector_store_path) ;;
         FAISS_save_local vs full_vector_store_path ;;
         print (MsgSaved full_vector_store_path))
        (λ e, print (MsgSaveError full_vector_store_path e))
  | None => ret tt
  end.

(** [Loader(file_path).load()] *)
Definition Loader_load (ld : loader) (file_path : string) : M L (list Document) :=
  stored ← read_disk file_path;
  lift
    match stored with
    | Some content => loader_load L ld file_path content
    | None => Raise "FileNotFoundError"
    end.

(** Body of the [for file_path in file_paths] loop; the value is
    [all_chunks] after the iteration.  Both [continue] statements leave
    the iteration with [all_chunks] as it was. *)
Definition process_file (file_path : string) (all_chunks : list Document)
  : M L (list Document) :=
  print (MsgProcessing file_path) ;;
  try_except
    (found ← os_path_exists file_path;
     if negb found then
       print (MsgNotFound file_path) ;;
       ret all_chunks
     else
       let file_ext := file_ext_of file_path in
       match select_loader file_ext with
       | Some ld =>
           documents ← Loader_load ld file_path;
           chunks ← lift (split_documents L chunk_size chunk_overlap documents);
           print (MsgSplit file_path (length chunks)) ;;
           ret (all_chunks ++ chunks)
       | None =>
           print (MsgUnsupported file_ext file_path) ;;
           ret all_chunks
       end)
    (λ e,
      print (MsgFileError file_path e) ;;
      ret all_chunks).

Fixpoint for_file_paths (file_paths : list string) (all_chunks : list Document)
  : M L (list Document) :=
  match file_paths with
  | [] => ret all_chunks
  | file_path :: rest =>
      all_chunks' ← process_file file_path all_chunks;
      for_file_paths rest all_chunks'
  end.

(** [self.vector_store = FAISS.from_documents(all_chunks, self.embeddings)] *)
Definition FAISS_from_documents (all_chunks : list Document) : M L (Index L) :=
  called (CFromDocuments all_chunks) (from_documents L all_chunks).

(** [vs.add_documents(all_chunks)]: the object held by the handler is the
    one the library mutated, whether or not the call raised. *)
Definition FAISS_add_documents (vs : Index L) (all_chunks : list Document) : M L unit :=
  λ st,
    match add_documents L vs all_chunks with
    | (vs', None) => (mkState (Some vs') (disk st), [Call (CAddDocuments all_chunks)], Ok tt)
    | (vs', Some e) => (mkState (Some vs') (disk st), [Call (CAddDocuments all_chunks)], Raise e)
    end.

(** The create-or-add step; [true] when the method goes on to save,
    [false] when an [except] branch returned. *)
Definition update_vector_store (all_chunks : list Document) : M L bool :=
  v ← get_vector_store;
  match v with
  | None =>
      try_except
        (vs ← FAISS_from_documents all_chunks;
         set_vector_store (Some vs) ;;
         print MsgCreated ;;
         ret true)
        (λ e,
          print (MsgCreateError e) ;;
          ret false)
  | Some vs =>
      try_except
        (FAISS_add_documents vs all_chunks ;;
         print MsgAdded ;;
         ret true)
        (λ e,
          print (MsgAddError e) ;;
          ret false)
  end.

Definition load_and_process_documents (file_paths : list string) : M L unit :=
  all_chunks ← for_file_paths file_paths [];
  match all_chunks with
  | [] => print MsgNoDocuments
  | _ :: _ =>
      proceed ← update_vector_store all_chunks;
      if proceed : bool then
        _save_vector_store ;;
        print MsgComplete
      else ret tt
  end.

Definition get_answer (query : string) : M L (option string) :=
  v ← get_vector_store;
  match v with
  | None =>
      print MsgNotInitialized ;;
      ret None
  | Some vs =>
      try_except
        (retriever ← lift (as_retriever L vs);
         qa_chain ← lift (from_chain_type L retriever);
         response ← lift (invoke L qa_chain query);
         let answer := default PyNone (response !! "result"%string) in
         if truthy answer then ret (Some (py_str answer))
         else
           print MsgNoAnswer ;;
           ret None)
        (λ e,
          print (MsgQAError e) ;;
          ret None)
  end.

End RAGHandler.

(** ** The batch as a function of the file system

    Closed forms of what the loop and the steps after it compute; the
    lemmas below relate them to the transcribed methods. *)

Section Descriptions.
Context {L : Library}.

(** The chunks one file contributes: those of its documents when it
    exists, has a supported extension, and loads and splits without an
    exception; none otherwise. *)
Definition file_chunks (d : gmap string (Blob L)) (file_path : string) : list Document :=
  match d !! file_path with
  | Some content =>
      match select_loader (file_ext_of file_path) with
      | Some ld =>
          match loader_load L ld file_path content with
          | Ok documents =>
              match split_documents L chunk_size chunk_overlap documents with
              | Ok chunks => chunks
              | Raise _ => []
              end
          | Raise _ => []
          end
      | None => []
      end
  | None => []
  end.

(** The line printed for one file after [Processing file: ...]. *)
Definition file_message (d : gmap string (Blob L)) (file_path : string) : message :=
  match d !! file_path with
  | Some content =>
      match select_loader (file_ext_of file_path) with
      | Some ld =>
          match loader_load L ld file_path content with
          | Ok documents =>
              match split_documents L chunk_size chunk_overlap documents with
              | Ok chunks => MsgSplit file_path (length chunks)
              | Raise e => MsgFileError file_path e
              end
          | Raise e => MsgFileError file_path e
          end
      | None => MsgUnsupported (file_ext_of file_path) file_path
      end
  | None => MsgNotFound file_path
  end.

Definition batch_chunks (d : gmap string (Blob L)) (file_paths : list string)
  : list Document :=
  concat (file_chunks d <$> file_paths).

Definition batch_messages (d : gmap string (Blob L)) (file_paths : list string)
  : list message :=
  concat ((λ p, [MsgProcessing p; file_message d p]) <$> file_paths).

(** The call the create-or-add step makes in state [st]. *)
Definition mutation_call (st : state L) (all_chunks : list Document) : call :=
  match vector_store st with
  | None => CFromDocuments all_chunks
  | Some _ => CAddDocuments all_chunks
  end.

(** The create-or-add step completes and leaves index [vs']. *)
Definition mutation_succeeds (st : state L) (all_chunks : list Document) (vs' : Index L)
  : Prop :=
  match vector_store st with
  | None => from_documents L all_chunks = Ok vs'
  | Some vs => add_documents L vs all_chunks = (vs', None)
  end.

Variable module_file : string.

(** What follows the loop in [load_and_process_documents]. *)
Definition finish_batch (all_chunks : list Document) : M L unit :=
  match all_chunks with
  | [] => print MsgNoDocuments
  | _ :: _ =>
      proceed ← update_vector_store all_chunks;
      if proceed : bool then
        _save_vector_store module_file ;;
        print MsgComplete
      else ret tt
  end.

End Descriptions.

(** The extensions with a loader. *)
Definition supported_ext (file_ext : string) : Prop :=
  file_ext = ".pdf"%string ∨ file_ext = ".txt"%string ∨ file_ext = ".docx"%string.

(** The three chain calls of [get_answer], as one outcome. *)
Definition qa_response {L : Library} (vs : Index L) (query : string)
  : result (gmap string pyval) :=
  match as_retriever L vs with
  | Ok retriever =>
      match from_chain_type L retriever with
      | Ok qa_chain => invoke L qa_chain query
      | Raise e => Raise e
      end
  | Raise e => Raise e
  end.

(** The response carries no answer: the key is missing, or it holds
    [None] or the empty string. *)
Definition empty_result (response : gmap string pyval) : Prop :=
  response !! "result"%string = None ∨
  response !! "result"%string = Some PyNone ∨
  response !! "result"%string = Some (PyStr "").

(** The loader each supported extension is given (lines 87-92). *)
Inductive loader_for : string → loader → Prop :=
| pdf_loader : loader_for ".pdf" PyPDFLoader
| txt_loader : loader_for ".txt" TextLoader
| docx_loader : loader_for ".docx" Docx2txtLoader.

(** [file_path] is on the file system [d], its lower-cased extension is one
    of the three with a loader, and that loader, then the splitter, complete
    with [chunks]. *)
Definition splits_into {L : Library} (d : gmap string (Blob L)) (file_path : string)
    (chunks : list Document) : Prop :=
  ∃ (content : Blob L) (ld : loader) (documents : list Document),
    d !! file_path = Some content ∧
    loader_for (file_ext_of file_path) ld ∧
    loader_load L ld file_path content = Ok documents ∧
    split_documents L chunk_size chunk_overlap documents = Ok chunks.


(** ** A reference library instance

    An in-memory stand-in for the third-party components, used to run the
    handler on concrete batches: the index is the list of its chunks in
    insertion order, embedding fails on a chunk whose text is the marker
    [unembeddable], and both mutations embed every chunk before inserting
    any. *)

Module ListStore.

Inductive blob :=
| FileText (text : string)
| IndexData (docs : list Document)
| Garbage.

Definition has_text (t : string) (d : Document) : bool :=
  String.eqb (page_content d) t.

Definition embeddable (chunks : list Document) : bool :=
  negb (existsb (has_text "unembeddable") chunks).

Definition ls_loader_load (ld : loader) (file_path : string) (content : blob)
  : result (list Document) :=
  match content with
  | FileText text => Ok [mkDocument text [("source"%string, file_path)]]
  | _ => Raise "ValueError: not a document"
  end.

(** Documents without text give no chunk. *)
Definition ls_split_documents (size overlap : nat) (documents : list Document)
  : result (list Document) :=
  Ok (List.filter (λ d, negb (has_text "" d)) documents).

Definition ls_from_documents (chunks : list Document) : result (list Document) :=
  if embeddable chunks then Ok chunks else Raise "EmbeddingError".

Definition ls_add_documents (vs chunks : list Document)
  : list Document * option exn :=
  if embeddable chunks then (vs ++ chunks, None) else (vs, Some "EmbeddingError"%string).

(** An index holding the marker [unpicklable] cannot be serialised. *)
Definition ls_save_local (vs : list Document) : save_outcome blob :=
  if existsb (has_text "unpicklable") vs
  then SaveFailed None "PicklingError"
  else Saved (IndexData vs).

Definition ls_load_local (b : blob) : result (list Document) :=
  match b with
  | IndexData docs => Ok docs
  | _ => Raise "RuntimeError: index file is corrupt"
  end.

(** The four first chunks whose text starts with the query. *)
Definition ls_similarity_search (vs : list Document) (query : string) : list Document :=
  take 4 (List.filter (λ d, String.prefix query (page_content d)) vs).

Definition ls_makedirs (path : string) : option exn :=
  if String.prefix "/readonly" path then Some "PermissionError"%string else None.

Definition ls_invoke (vs : list Document) (query : string) : result (gmap string pyval) :=
  if String.eqb query "timeout" then Raise "APITimeoutError"
  else
    match ls_similarity_search vs query with
    | d :: _ => Ok {[ "result"%string := PyStr (page_content d) ]}
    | [] => Ok {[ "result"%string := PyStr "" ]}
    end.

Definition lib : Library := {|
  Index := list Document;
  Blob := blob;
  Retriever := list Document;
  Chain := list Document;
  loader_load := ls_loader_load;
  split_documents := ls_split_documents;
  from_documents := ls_from_documents;
  add_documents := ls_add_documents;
  save_local := ls_save_local;
  load_local := ls_load_local;
  similarity_search := ls_similarity_search;
  as_retriever := Ok;
  makedirs := ls_makedirs;
  from_chain_type := Ok;
  invoke := ls_invoke
|}.

Definition module_file : string := "/srv/rag_app/app/rag_handler.py".

Definition index_path : string := "/srv/rag_app/app/../vector_store/faiss_index".

Definition paris : Document :=
  mkDocument "The capital of France is Paris." [("source"%string, "/up/fr.txt"%string)].
Definition mars : Document :=
  mkDocument "Mars is a planet." [("source"%string, "/up/mars.TXT"%string)].

(** An upload directory: two text files, one spreadsheet, one file that
    cannot be embedded, one that cannot be parsed, one without text, and
    one whose chunk makes the index impossible to serialise. *)
Definition uploads : gmap string blob :=
  {[ "/up/fr.txt"%string := FileText "The capital of France is Paris.";
     "/up/mars.TXT"%string := FileText "Mars is a planet.";
     "/up/sheet.xlsx"%string := FileText "a,b,c";
     "/up/bad.txt"%string := FileText "unembeddable";
     "/up/broken.pdf"%string := Garbage;
     "/up/empty.txt"%string := FileText "";
   "/up/lambda.txt"%string := FileText "unpicklable" ]}.

Definition fresh : state lib := @mkState lib None uploads.

Definition lambda : Document :=
  mkDocument "unpicklable" [("source"%string, "/up/lambda.txt"%string)].

(** A handler whose index, holding one chunk, is also the saved one. *)
Definition serving : state lib :=
  @mkState lib (Some [paris]) (<[index_path := IndexData [paris]]> uploads).

End ListStore.

(** ** A second library instance

    The same stand-in with two differences: [add_documents] embeds and
    inserts the chunks one at a time, so that it raises with the chunks before
    the offending one already inserted, and [load_local] rebuilds the index
    from the last stored chunk to the first. *)

Module CrudeStore.

Fixpoint cs_add_documents (vs chunks : list Document) : list Document * option exn :=
  match chunks with
  | [] => (vs, None)
  | c :: rest =>
      if ListStore.has_text "unembeddable" c
      then (vs, Some "EmbeddingError"%string)
      else cs_add_documents (vs ++ [c]) rest
  end.

Definition cs_load_local (b : ListStore.blob) : result (list Document) :=
  match b with
  | ListStore.IndexData docs => Ok (rev docs)
  | _ => Raise "RuntimeError: index file is corrupt"
  end.

Definition lib : Library := {|
  Index := list Document;
  Blob := ListStore.blob;
  Retriever := list Document;
  Chain := list Document;
  loader_load := ListStore.ls_loader_load;
  split_documents := ListStore.ls_split_documents;
  from_documents := ListStore.ls_from_documents;
  add_documents := cs_add_documents;
  save_local := ListStore.ls_save_local;
  load_local := cs_load_local;
  similarity_search := ListStore.ls_similarity_search;
  as_retriever := Ok;
  makedirs := ListStore.ls_makedirs;
  from_chain_type := Ok;
  invoke := ListStore.ls_invoke
|}.

Definition rome : Document :=
  mkDocument "The capital of Italy is Rome." [("source"%string, "/up/it.txt"%string)].

Definition bad : Document :=
  mkDocument "unembeddable" [("source"%string, "/up/bad.txt"%string)].

(** A handler holding one chunk, over the upload directory. *)
Definition serving : state lib := @mkState lib (Some [ListStore.paris]) ListStore.uploads.

(** A handler holding two chunks that answer the same query. *)
Definition capitals : state lib := @mkState lib (Some [ListStore.paris; rome]) ∅.

End CrudeStore.

(** What a run leaves behind: the handler's index, the saved index, the
    events and the outcome. *)
Definition observe {L : Library} {A : Type} (module_file : string)
    (r : state L * list event * result A)
  : option (Index L) * option (Blob L) * list event * result A :=
  (vector_store r.1.1, disk r.1.1 !! full_vector_store_path module_file, r.1.2, r.2).

(** ** [str.strip()]

    A string stands for its UTF-8 encoding.  [strip] without argument
    removes the characters for which [str.isspace] holds: U+0009-000D,
    U+001C-001F, U+0020, U+0085, U+00A0, U+1680, U+2000-200A, U+2028, U+2029,
    U+202F, U+205F and U+3000. *)

Module PySpace.
Import PyStr.

Definition byte (c : ascii) : nat := nat_of_ascii c.

(** A whitespace character encoded on one byte. *)
Definition space1 (c : ascii) : bool :=
  let n := byte c in
  ((9 <=? n) && (n <=? 13) || (28 <=? n) && (n <=? 32))%nat.

(** On two bytes: U+0085 and U+00A0. *)
Definition space2 (c1 c2 : ascii) : bool :=
  ((byte c1 =? 194) && ((byte c2 =? 133) || (byte c2 =? 160)))%nat.

(** On three bytes: U+1680, U+2000-200A, U+2028, U+2029, U+202F, U+205F,
    U+3000. *)
Definition space3 (c1 c2 c3 : ascii) : bool :=
  let n1 := byte c1 in
  let n2 := byte c2 in
  let n3 := byte c3 in
  ((n1 =? 225) && (n2 =? 154) && (n3 =? 128)
   || (n1 =? 226) && (n2 =? 128)
      && ((128 <=? n3) && (n3 <=? 138) || (n3 =? 168) || (n3 =? 169) || (n3 =? 175))
   || (n1 =? 226) && (n2 =? 129) && (n3 =? 159)
   || (n1 =? 227) && (n2 =? 128) && (n3 =? 128))%nat.

(** [p.lstrip()] *)
Fixpoint lstrip (p : chars) : chars :=
  match p with
  | [] => []
  | c1 :: p1 =>
      if space1 c1 then lstrip p1
      else
        match p1 with
        | c2 :: p2 =>
            if space2 c1 c2 then lstrip p2
            else
              match p2 with
              | c3 :: p3 => if space3 c1 c2 c3 then lstrip p3 else p
              | [] => p
              end
        | [] => p
        end
  end.

(** [lstrip] on the reversed string: the bytes of a character come last
    byte first. *)
Fixpoint lstrip_reversed (p : chars) : chars :=
  match p with
  | [] => []
  | c1 :: p1 =>
      if space1 c1 then lstrip_reversed p1
      else
        match p1 with
        | c2 :: p2 =>
            if space2 c2 c1 then lstrip_reversed p2
            else
              match p2 with
              | c3 :: p3 => if space3 c3 c2 c1 then lstrip_reversed p3 else p
              | [] => p
              end
        | [] => p
        end
  end.

(** [p.rstrip()] *)
Definition rstrip_space (p : chars) : chars := rev (lstrip_reversed (rev p)).

(** [s.strip()] *)
Definition strip (s : string) : string :=
  to_string (rstrip_space (lstrip (of_string s))).

End PySpace.

(** ** The HTTP layer ([main.py])

    The two endpoints, for one request at a time.  An [HTTPException] is
    never raised inside a [try] of its own endpoint, so it is modelled as
    one of the two ways an endpoint ends.  The test [if not rag_handler] is
    left out: [rag_handler] is a [RAGHandler] instance, which is always
    true. *)

Module Main.

(** How an endpoint ends. *)
Inductive http_result (A : Type) : Type :=
| Response (body : A)
| HTTPException (status_code : nat) (detail : string).
Arguments Response {A} body.
Arguments HTTPException {A} status_code detail.

Record QueryResponse := mkQueryResponse { answer : string }.

Record UploadResponse := mkUploadResponse {
  message : string;
  filenames : list string
}.

(** An [UploadFile]: its [filename], and how the block
    [with open(file_path, "wb") as buffer: buffer.write(await file.read())]
    ends for it: the contents now stored at [file_path], or an exception
    together with what the block left there. *)
Record UploadFile (B : Type) := mkUploadFile {
  filename : option string;
  write : save_outcome B
}.
Arguments mkUploadFile {B} filename write.
Arguments filename {B} u.
Arguments write {B} u.

(** One constructor per [print] statement of the endpoints. *)
Inductive main_message :=
| WarnNoFilename
| ErrSaving (filename : string) (e : exn)
| ErrProcessing (e : exn)
| ErrGetAnswer (e : exn).

(** Output of an endpoint: its own lines and the events of the handler. *)
Inductive main_event :=
| MainPrint (m : main_message)
| Handler (ev : event).

(** The events of the handler among those of an endpoint. *)
Definition handler_events (out : list main_event) : list event :=
  omap (λ ev, match ev with Handler e => Some e | MainPrint _ => None end) out.

(** An endpoint body. *)
Definition Endpoint (L : Library) (A : Type) : Type :=
  state L → state L * list main_event * http_result A.

Section Endpoints.
Context {L : Library}.

(** [__file__] of [main.py] and of [rag_handler.py]. *)
Variable main_file : string.
Variable module_file : string.

Definition APP_DIR : string := OsPath.dirname main_file.
Definition RAG_APP_ROOT_DIR : string := OsPath.dirname APP_DIR.
Definition STATIC_FILES_DIR : string := OsPath.join RAG_APP_ROOT_DIR ["static"%string].
Definition TEMPLATES_DIR : string := OsPath.join RAG_APP_ROOT_DIR ["templates"%string].
Definition UPLOAD_DIR_MAIN : string := OsPath.join RAG_APP_ROOT_DIR [UPLOAD_DIRECTORY].

(** [if not file.filename] *)
Definition no_filename (file : UploadFile (Blob L)) : bool :=
  match filename file with
  | Some name => String.eqb name ""
  | None => true
  end.

(** Body of the [for file in files] loop, on the pair
    [(saved_file_paths, processed_filenames)]. *)
Definition save_file (file : UploadFile (Blob L)) (lists : list string * list string)
    (st : state L)
  : state L * list main_event * (list string * list string) :=
  if no_filename file then (st, [MainPrint WarnNoFilename], lists)
  else
    let name := default ""%string (filename file) in
    let file_path := OsPath.join UPLOAD_DIR_MAIN [name] in
    match write file with
    | Saved b =>
        (mkState (vector_store st) (<[file_path := b]> (disk st)), [],
         (lists.1 ++ [file_path], lists.2 ++ [name]))
    | SaveFailed left_behind e =>
        (mkState (vector_store st)
           match left_behind with
           | Some g => <[file_path := g]> (disk st)
           | None => disk st
           end,
         [MainPrint (ErrSaving name e)], lists)
    end.

Fixpoint for_files (files : list (UploadFile (Blob L))) (lists : list string * list string)
    (st : state L)
  : state L * list main_event * (list string * list string) :=
  match files with
  | [] => (st, [], lists)
  | file :: rest =>
      match save_file file lists st with
      | (st1, out1, lists1) =>
          match for_files rest lists1 st1 with
          | (st2, out2, lists2) => (st2, out1 ++ out2, lists2)
          end
      end
  end.

Definition upload_documents (files : list (UploadFile (Blob L)))
  : Endpoint L UploadResponse :=
  λ st,
    match for_files files ([], []) st with
    | (st1, out1, (saved_file_paths, processed_filenames)) =>
        match saved_file_paths with
        | [] => (st1, out1, HTTPException 400 "No files were successfully saved.")
        | _ :: _ =>
            match load_and_process_documents module_file saved_file_paths st1 with
            | (st2, out2, Ok _) =>
                (st2, out1 ++ (Handler <$> out2),
                 Response
                   (mkUploadResponse
                      ("Successfully uploaded and initiated processing for "
                       +:+ pretty (length processed_filenames) +:+ " files.")
                      processed_filenames))
            | (st2, out2, Raise e) =>
                (st2, out1 ++ (Handler <$> out2) ++ [MainPrint (ErrProcessing e)],
                 HTTPException 500 ("Error processing documents: " +:+ e))
            end
        end
    end.

(** [not query_request.query or not query_request.query.strip()] *)
Definition empty_query (query : string) : bool :=
  String.eqb query "" || String.eqb (PySpace.strip query) "".

Definition chat_with_rag (query : string) : Endpoint L QueryResponse :=
  λ st,
    if empty_query query then (st, [], HTTPException 400 "Query cannot be empty.")
    else
      match get_answer query st with
      | (st1, out1, Ok (Some answer)) =>
          (st1, Handler <$> out1, Response (mkQueryResponse answer))
      | (st1, out1, Ok None) =>
          (st1, Handler <$> out1,
           HTTPException 404
             "Could not retrieve an answer. The document store might not be ready or relevant information not found.")
      | (st1, out1, Raise e) =>
          (st1, (Handler <$> out1) ++ [MainPrint (ErrGetAnswer e)],
           HTTPException 500 "Error retrieving answer from RAG system.")
      end.

(** [os.path.join(UPLOAD_DIR_MAIN, file.filename)] *)
Definition upload_path (name : string) : string := OsPath.join UPLOAD_DIR_MAIN [name].

(** The name under which the loop records a file: it has a filename and
    its write completed. *)
Definition stored (file : UploadFile (Blob L)) : option string :=
  if no_filename file then None
  else
    match write file with
    | Saved _ => filename file
    | SaveFailed _ _ => None
    end.

Definition stored_names (files : list (UploadFile (Blob L))) : list string :=
  omap stored files.

(** A request to the service, and the service answering requests one after
    the other on the same handler and file system. *)
Inductive request :=
| Upload (files : list (UploadFile (Blob L)))
| Chat (query : string).

(** The status code a request is answered with. *)
Definition status_of {A : Type} (r : http_result A) : nat :=
  match r with
  | Response _ => 200
  | HTTPException status_code _ => status_code
  end.

Definition serve (rq : request) (st : state L) : state L * list main_event * nat :=
  match rq with
  | Upload files =>
      match upload_documents files st with
      | (st1, out1, r) => (st1, out1, status_of r)
      end
  | Chat query =>
      match chat_with_rag query st with
      | (st1, out1, r) => (st1, out1, status_of r)
      end
  end.

Fixpoint serve_all (rqs : list request) (st : state L)
  : state L * list main_event * list nat :=
  match rqs with
  | [] => (st, [], [])
  | rq :: rest =>
      match serve rq st with
      | (st1, out1, code) =>
          match serve_all rest st1 with
          | (st2, out2, codes) => (st2, out1 ++ out2, code :: codes)
          end
      end
  end.

End Endpoints.

End Main.

(** Uploads for the reference instance. *)
Module ListStoreMain.

Definition main_file : string := "/srv/rag_app/app/main.py".

Definition upload (name text : string) : Main.UploadFile (Blob ListStore.lib) :=
  Main.mkUploadFile (Some name) (Saved (ListStore.FileText text)).

Definition refused (name : string) : Main.UploadFile (Blob ListStore.lib) :=
  Main.mkUploadFile (Some name) (SaveFailed None "PermissionError").

Definition nameless : Main.UploadFile (Blob ListStore.lib) :=
  Main.mkUploadFile None (Saved (ListStore.FileText "lost")).

(** A service that has not received anything yet. *)
Definition empty_service : state ListStore.lib := @mkState ListStore.lib None ∅.

End ListStoreMain.

(** * Properties *)

(** ** Running the monad *)

(** Path arithmetic is kept folded while the monad is unfolded. *)
Arguments OsPath.dirname : simpl never.
Arguments OsPath.join : simpl never.
Arguments OsPath.splitext : simpl never.
Arguments PyStr.lower : simpl never.
Arguments file_ext_of : simpl never.
Arguments full_vector_store_path : simpl never.

Ltac project := cbn [fst snd vector_store disk app omap calls] in *.

Ltac run_monad :=
  cbv [mbind mret M_bind M_ret bind ret try_except print called lift
       get_vector_store set_vector_store read_disk os_path_exists] in *;
  project.

Lemma calls_app (a b : list event) : calls (a ++ b) = calls a ++ calls b.
Proof. unfold calls. apply omap_app. Qed.

Lemma calls_prints (ms : list message) : calls (Print <$> ms) = [].
Proof. induction ms as [|m ms IH]; simpl; auto. Qed.

Lemma state_eta {L : Library} (st : state L) :
  mkState (vector_store st) (disk st) = st.
Proof. destruct st; reflexivity. Qed.

(** ** Paths and runs on the reference instance *)

Example splitext_pdf : OsPath.splitext "/srv/uploads/report.v2.PDF" = ("/srv/uploads/report.v2", ".PDF")%string.
Proof. reflexivity. Qed.

Example splitext_dotfile : OsPath.splitext "/srv/uploads/.bashrc" = ("/srv/uploads/.bashrc", "")%string.
Proof. reflexivity. Qed.

Example splitext_dot_in_dir : OsPath.splitext "/srv/up.loads/readme" = ("/srv/up.loads/readme", "")%string.
Proof. reflexivity. Qed.

Example dirname_module : OsPath.dirname "/srv/rag_app/app/rag_handler.py" = "/srv/rag_app/app"%string.
Proof. reflexivity. Qed.

Example join_store :
  OsPath.join "/srv/rag_app/app" [".."; "vector_store/faiss_index"]%string
  = "/srv/rag_app/app/../vector_store/faiss_index"%string.
Proof. reflexivity. Qed.

Example lower_mixed : PyStr.lower ".DocX" = ".docx"%string.
Proof. reflexivity. Qed.

Example full_path_listStore :
  full_vector_store_path ListStore.module_file = ListStore.index_path.
Proof. reflexivity. Qed.

Example ingest_two_files :
  observe ListStore.module_file
    (load_and_process_documents ListStore.module_file
       ["/up/fr.txt"; "/up/sheet.xlsx"; "/up/mars.TXT"; "/up/nowhere.txt"]%string
       ListStore.fresh)
  = (Some [ListStore.paris; ListStore.mars],
     Some (ListStore.IndexData [ListStore.paris; ListStore.mars]),
     [Print (MsgProcessing "/up/fr.txt"); Print (MsgSplit "/up/fr.txt" 1);
      Print (MsgProcessing "/up/sheet.xlsx"); Print (MsgUnsupported ".xlsx" "/up/sheet.xlsx");
      Print (MsgProcessing "/up/mars.TXT"); Print (MsgSplit "/up/mars.TXT" 1);
      Print (MsgProcessing "/up/nowhere.txt"); Print (MsgNotFound "/up/nowhere.txt");
      Call (CFromDocuments [ListStore.paris; ListStore.mars]); Print MsgCreated;
      Call (CMakedirs "/srv/rag_app/app/../vector_store");
      Call (CSaveLocal ListStore.index_path); Print (MsgSaved ListStore.index_path);
      Print MsgComplete],
     Ok tt).
Proof. vm_compute. reflexivity. Qed.

Example ingest_nothing :
  observe ListStore.module_file
    (load_and_process_documents ListStore.module_file
       ["/up/sheet.xlsx"; "/up/broken.pdf"; "/up/empty.txt"]%string ListStore.fresh)
  = (None, None,
     [Print (MsgProcessing "/up/sheet.xlsx"); Print (MsgUnsupported ".xlsx" "/up/sheet.xlsx");
      Print (MsgProcessing "/up/broken.pdf");
      Print (MsgFileError "/up/broken.pdf" "ValueError: not a document");
      Print (MsgProcessing "/up/empty.txt"); Print (MsgSplit "/up/empty.txt" 0);
      Print MsgNoDocuments],
     Ok tt).
Proof. vm_compute. reflexivity. Qed.

Example ingest_into_existing :
  observe ListStore.module_file
    (load_and_process_documents ListStore.module_file
       ["/up/mars.TXT"; "/up/broken.pdf"]%string ListStore.serving)
  = (Some [ListStore.paris; ListStore.mars],
     Some (ListStore.IndexData [ListStore.paris; ListStore.mars]),
     [Print (MsgProcessing "/up/mars.TXT"); Print (MsgSplit "/up/mars.TXT" 1);
      Print (MsgProcessing "/up/broken.pdf");
      Print (MsgFileError "/up/broken.pdf" "ValueError: not a document");
      Call (CAddDocuments [ListStore.mars]); Print MsgAdded;
      Call (CMakedirs "/srv/rag_app/app/../vector_store");
      Call (CSaveLocal ListStore.index_path); Print (MsgSaved ListStore.index_path);
      Print MsgComplete],
     Ok tt).
Proof. vm_compute. reflexivity. Qed.

Example ingest_unembeddable :
  observe ListStore.module_file
    (load_and_process_documents ListStore.module_file
       ["/up/mars.TXT"; "/up/bad.txt"]%string ListStore.serving)
  = (Some [ListStore.paris],
     Some (ListStore.IndexData [ListStore.paris]),
     [Print (MsgProcessing "/up/mars.TXT"); Print (MsgSplit "/up/mars.TXT" 1);
      Print (MsgProcessing "/up/bad.txt"); Print (MsgSplit "/up/bad.txt" 1);
      Call (CAddDocuments
              [ListStore.mars;
               mkDocument "unembeddable" [("source"%string, "/up/bad.txt"%string)]]);
      Print (MsgAddError "EmbeddingError")],
     Ok tt).
Proof. vm_compute. reflexivity. Qed.

Example restart_after_ingest :
  let r := load_and_process_documents ListStore.module_file
             ["/up/fr.txt"; "/up/mars.TXT"]%string ListStore.fresh in
  observe ListStore.module_file
    (__init__ ListStore.module_file (@mkState ListStore.lib None (disk r.1.1)))
  = (Some [ListStore.paris; ListStore.mars],
     Some (ListStore.IndexData [ListStore.paris; ListStore.mars]),
     [Call (CLoadLocal ListStore.index_path); Print (MsgLoaded ListStore.index_path)],
     Ok tt).
Proof. vm_compute. reflexivity. Qed.

Example ask_paris :
  (get_answer "The capital" (@mkState ListStore.lib (Some [ListStore.mars; ListStore.paris]) ∅)).2
  = Ok (Some "The capital of France is Paris."%string).
Proof. vm_compute. reflexivity. Qed.

(** ** The per-file loop, as a function of the batch *)

Section Batch.
Context {L : Library}.

Lemma process_file_run (file_path : string) (all_chunks : list Document) (st : state L) :
  process_file file_path all_chunks st
  = (st, [Print (MsgProcessing file_path); Print (file_message (disk st) file_path)],
     Ok (all_chunks ++ file_chunks (disk st) file_path)).
Proof.
  unfold process_file, Loader_load, file_message, file_chunks. run_monad.
  destruct (disk st !! file_path) as [content|] eqn:Hfile; simpl.
  - destruct (select_loader (file_ext_of file_path)) as [ld|]; simpl.
    + rewrite Hfile.
      destruct (loader_load L ld file_path content) as [documents|e]; simpl.
      * destruct (split_documents L chunk_size chunk_overlap documents) as [chunks|e];
          simpl; rewrite ?app_nil_r; reflexivity.
      * rewrite app_nil_r. reflexivity.
    + rewrite app_nil_r. reflexivity.
  - rewrite app_nil_r. reflexivity.
Qed.

Lemma for_file_paths_run (file_paths : list string) (all_chunks : list Document)
    (st : state L) :
  for_file_paths file_paths all_chunks st
  = (st, Print <$> batch_messages (disk st) file_paths,
     Ok (all_chunks ++ batch_chunks (disk st) file_paths)).
Proof.
  revert all_chunks.
  induction file_paths as [|file_path rest IH]; intros all_chunks; simpl.
  - unfold ret. rewrite app_nil_r. reflexivity.
  - unfold mbind, M_bind, bind. rewrite process_file_run, IH.
    unfold batch_chunks, batch_messages. simpl. rewrite <- app_assoc. reflexivity.
Qed.

Lemma file_message_not_complete (d : gmap string (Blob L)) (file_path : string) :
  file_message d file_path ≠ MsgComplete.
Proof.
  unfold file_message.
  repeat (match goal with |- context [match ?x with _ => _ end] => destruct x end);
    discriminate.
Qed.

Lemma batch_messages_not_complete (d : gmap string (Blob L)) (file_paths : list string) :
  MsgComplete ∉ batch_messages d file_paths.
Proof.
  induction file_paths as [|p rest IH]; unfold batch_messages; simpl.
  - apply not_elem_of_nil.
  - intros Hin. apply elem_of_cons in Hin as [Hin|Hin]; [discriminate|].
    apply elem_of_cons in Hin as [Hin|Hin]; [|exact (IH Hin)].
    symmetry in Hin. exact (file_message_not_complete d p Hin).
Qed.

Lemma batch_chunks_app (d : gmap string (Blob L)) (l1 l2 : list string) :
  batch_chunks d (l1 ++ l2) = batch_chunks d l1 ++ batch_chunks d l2.
Proof. unfold batch_chunks. rewrite fmap_app, concat_app. reflexivity. Qed.

Lemma batch_messages_app (d : gmap string (Blob L)) (l1 l2 : list string) :
  batch_messages d (l1 ++ l2) = batch_messages d l1 ++ batch_messages d l2.
Proof. unfold batch_messages. rewrite fmap_app, concat_app. reflexivity. Qed.

End Batch.

(** ** The create-or-add step and the save step *)

Section Steps.
Context {L : Library}.
Variable module_file : string.

Local Abbreviation full := (full_vector_store_path module_file).

Lemma update_create_ok (chunks : list Document) (st : state L) (vs : Index L) :
  vector_store st = None →
  from_documents L chunks = Ok vs →
  update_vector_store chunks st
  = (mkState (Some vs) (disk st), [Call (CFromDocuments chunks); Print MsgCreated], Ok true).
Proof.
  intros Hnone Hok. unfold update_vector_store, FAISS_from_documents. run_monad.
  rewrite Hnone, Hok. reflexivity.
Qed.

Lemma update_create_raise (chunks : list Document) (st : state L) (e : exn) :
  vector_store st = None →
  from_documents L chunks = Raise e →
  update_vector_store chunks st
  = (st, [Call (CFromDocuments chunks); Print (MsgCreateError e)], Ok false).
Proof.
  intros Hnone Hraise. unfold update_vector_store, FAISS_from_documents. run_monad.
  rewrite Hnone, Hraise. reflexivity.
Qed.

Lemma update_add_ok (chunks : list Document) (st : state L) (vs vs' : Index L) :
  vector_store st = Some vs →
  add_documents L vs chunks = (vs', None) →
  update_vector_store chunks st
  = (mkState (Some vs') (disk st), [Call (CAddDocuments chunks); Print MsgAdded], Ok true).
Proof.
  intros Hsome Hok. unfold update_vector_store, FAISS_add_documents. run_monad.
  rewrite Hsome, Hok. reflexivity.
Qed.

Lemma update_add_raise (chunks : list Document) (st : state L) (vs vs' : Index L)
    (e : exn) :
  vector_store st = Some vs →
  add_documents L vs chunks = (vs', Some e) →
  update_vector_store chunks st
  = (mkState (Some vs') (disk st),
     [Call (CAddDocuments chunks); Print (MsgAddError e)], Ok false).
Proof.
  intros Hsome Hraise. unfold update_vector_store, FAISS_add_documents. run_monad.
  rewrite Hsome, Hraise. reflexivity.
Qed.

Lemma save_nothing (st : state L) :
  vector_store st = None → _save_vector_store module_file st = (st, [], Ok tt).
Proof.
  intros Hnone. unfold _save_vector_store. run_monad. rewrite Hnone. reflexivity.
Qed.

Lemma save_ok (st : state L) (vs : Index L) (b : Blob L) :
  vector_store st = Some vs →
  makedirs L (OsPath.dirname full) = None →
  save_local L vs = Saved b →
  _save_vector_store module_file st
  = (mkState (Some vs) (<[full := b]> (disk st)),
     [Call (CMakedirs (OsPath.dirname full)); Call (CSaveLocal full); Print (MsgSaved full)],
     Ok tt).
Proof.
  intros Hsome Hdir Hsave.
  unfold _save_vector_store, os_makedirs, FAISS_save_local. run_monad.
  rewrite Hsome, Hdir, Hsave. project. rewrite Hsome. reflexivity.
Qed.

Lemma save_makedirs_raise (st : state L) (vs : Index L) (e : exn) :
  vector_store st = Some vs →
  makedirs L (OsPath.dirname full) = Some e →
  _save_vector_store module_file st
  = (st, [Call (CMakedirs (OsPath.dirname full)); Print (MsgSaveError full e)], Ok tt).
Proof.
  intros Hsome Hdir. unfold _save_vector_store, os_makedirs, FAISS_save_local. run_monad.
  rewrite Hsome, Hdir. reflexivity.
Qed.

Lemma save_local_raise (st : state L) (vs : Index L) (left_behind : option (Blob L))
    (e : exn) :
  vector_store st = Some vs →
  makedirs L (OsPath.dirname full) = None →
  save_local L vs = SaveFailed left_behind e →
  _save_vector_store module_file st
  = (mkState (Some vs)
       match left_behind with
       | Some g => <[full := g]> (disk st)
       | None => disk st
       end,
     [Call (CMakedirs (OsPath.dirname full)); Call (CSaveLocal full);
      Print (MsgSaveError full e)],
     Ok tt).
Proof.
  intros Hsome Hdir Hsave.
  unfold _save_vector_store, os_makedirs, FAISS_save_local. run_monad.
  rewrite Hsome, Hdir, Hsave. project. rewrite Hsome. reflexivity.
Qed.

(** [_save_vector_store] never raises and never replaces the handler's
    index. *)
Lemma save_total (st : state L) :
  ∃ d out, _save_vector_store module_file st = (mkState (vector_store st) d, out, Ok tt).
Proof.
  destruct (vector_store st) as [vs|] eqn:Hvs.
  - destruct (makedirs L (OsPath.dirname full)) as [e|] eqn:Hdir.
    + rewrite (save_makedirs_raise st vs e Hvs Hdir).
      eexists _, _. rewrite <- Hvs, state_eta. reflexivity.
    + destruct (save_local L vs) as [b|lb e] eqn:Hsave.
      * rewrite (save_ok st vs b Hvs Hdir Hsave). eauto.
      * rewrite (save_local_raise st vs lb e Hvs Hdir Hsave). eauto.
  - rewrite (save_nothing st Hvs). eexists _, _. rewrite <- Hvs, state_eta. reflexivity.
Qed.

Lemma load_and_process_documents_run (file_paths : list string) (st : state L) :
  load_and_process_documents module_file file_paths st
  = match finish_batch module_file (batch_chunks (disk st) file_paths) st with
    | (st', out, r) => (st', (Print <$> batch_messages (disk st) file_paths) ++ out, r)
    end.
Proof.
  unfold load_and_process_documents, finish_batch.
  unfold mbind at 1. unfold M_bind, bind at 1.
  rewrite for_file_paths_run. simpl. reflexivity.
Qed.

Lemma finish_batch_empty (st : state L) :
  finish_batch module_file [] st = (st, [Print MsgNoDocuments], Ok tt).
Proof. reflexivity. Qed.

Lemma finish_batch_stop (chunks : list Document) (st st1 : state L) (out1 : list event) :
  chunks ≠ [] →
  update_vector_store chunks st = (st1, out1, Ok false) →
  finish_batch module_file chunks st = (st1, out1, Ok tt).
Proof.
  intros Hne Hup. destruct chunks as [|c chunks]; [congruence|].
  unfold finish_batch. unfold mbind at 1. unfold M_bind, bind at 1.
  rewrite Hup. unfold mret, M_ret, ret. rewrite app_nil_r. reflexivity.
Qed.

Lemma finish_batch_save (chunks : list Document) (st st1 st2 : state L)
    (out1 out2 : list event) :
  chunks ≠ [] →
  update_vector_store chunks st = (st1, out1, Ok true) →
  _save_vector_store module_file st1 = (st2, out2, Ok tt) →
  finish_batch module_file chunks st = (st2, out1 ++ out2 ++ [Print MsgComplete], Ok tt).
Proof.
  intros Hne Hup Hsave. destruct chunks as [|c chunks]; [congruence|].
  unfold finish_batch. unfold mbind at 1. unfold M_bind, bind at 1.
  rewrite Hup. unfold mbind, M_bind, bind. rewrite Hsave. reflexivity.
Qed.

End Steps.

(** ** Extension dispatch *)

Lemma select_loader_none (file_ext : string) :
  select_loader file_ext = None ↔ ¬ supported_ext file_ext.
Proof.
  unfold select_loader, supported_ext.
  destruct (String.eqb_spec file_ext ".pdf"); [split; [discriminate | tauto]|].
  destruct (String.eqb_spec file_ext ".txt"); [split; [discriminate | tauto]|].
  destruct (String.eqb_spec file_ext ".docx"); [split; [discriminate | tauto]|].
  split; [tauto | reflexivity].
Qed.

(** ** Whole-batch facts *)

Section BatchFacts.
Context {L : Library}.
Variable module_file : string.

Local Abbreviation full := (full_vector_store_path module_file).

Lemma loop_chunks (file_paths : list string) (st : state L) (all_chunks : list Document) :
  (for_file_paths file_paths [] st).2 = Ok all_chunks →
  batch_chunks (disk st) file_paths = all_chunks.
Proof. rewrite for_file_paths_run. simpl. congruence. Qed.

Lemma loop_out (file_paths : list string) (st : state L) :
  (for_file_paths file_paths [] st).1.2 = Print <$> batch_messages (disk st) file_paths.
Proof. rewrite for_file_paths_run. reflexivity. Qed.

Lemma update_succeeds (st : state L) (all_chunks : list Document) (vs' : Index L) :
  mutation_succeeds st all_chunks vs' →
  ∃ m, update_vector_store all_chunks st
       = (mkState (Some vs') (disk st), [Call (mutation_call st all_chunks); Print m], Ok true).
Proof.
  unfold mutation_succeeds, mutation_call. intros Hok.
  destruct (vector_store st) as [vs|] eqn:Hvs.
  - rewrite (update_add_ok all_chunks st vs vs' Hvs Hok). eauto.
  - rewrite (update_create_ok all_chunks st vs' Hvs Hok). eauto.
Qed.

(** A batch with chunks whose mutation succeeds: the method is the
    mutation followed by [_save_vector_store] on the updated handler. *)
Lemma batch_saved (file_paths : list string) (st : state L) (all_chunks : list Document)
    (vs' : Index L) :
  (for_file_paths file_paths [] st).2 = Ok all_chunks →
  all_chunks ≠ [] →
  mutation_succeeds st all_chunks vs' →
  let saved := _save_vector_store module_file (mkState (Some vs') (disk st)) in
  let r := load_and_process_documents module_file file_paths st in
  r.1.1 = saved.1.1 ∧ r.2 = Ok tt ∧
  calls r.1.2 = mutation_call st all_chunks :: calls saved.1.2 ∧
  ∃ m, r.1.2 = (for_file_paths file_paths [] st).1.2
               ++ [Call (mutation_call st all_chunks); Print m]
               ++ saved.1.2 ++ [Print MsgComplete].
Proof.
  intros Hloop Hne Hok saved r. subst r.
  rewrite load_and_process_documents_run, loop_out.
  rewrite (loop_chunks _ _ _ Hloop).
  destruct (update_succeeds st all_chunks vs' Hok) as [m Hup].
  destruct (save_total module_file (mkState (Some vs') (disk st))) as (d & out & Hsave).
  rewrite (finish_batch_save module_file all_chunks st _ _ _ _ Hne Hup Hsave).
  subst saved. rewrite Hsave. simpl.
  repeat split; [|eauto].
  rewrite !calls_app, calls_prints. simpl. rewrite calls_app. simpl.
  rewrite app_nil_r. reflexivity.
Qed.

(** A batch with chunks whose mutation raises: the method returns from
    the [except] branch, in the state the failed call left. *)
Lemma batch_stopped (file_paths : list string) (st st1 : state L)
    (all_chunks : list Document) (m : message) :
  (for_file_paths file_paths [] st).2 = Ok all_chunks →
  all_chunks ≠ [] →
  update_vector_store all_chunks st
  = (st1, [Call (mutation_call st all_chunks); Print m], Ok false) →
  load_and_process_documents module_file file_paths st
  = (st1,
     (for_file_paths file_paths [] st).1.2 ++ [Call (mutation_call st all_chunks); Print m],
     Ok tt).
Proof.
  intros Hloop Hne Hup.
  rewrite load_and_process_documents_run, loop_out, (loop_chunks _ _ _ Hloop).
  rewrite (finish_batch_stop module_file all_chunks st st1 _ Hne Hup). reflexivity.
Qed.

Lemma update_raises_create (st : state L) (all_chunks : list Document) (e : exn) :
  vector_store st = None →
  from_documents L all_chunks = Raise e →
  update_vector_store all_chunks st
  = (st, [Call (mutation_call st all_chunks); Print (MsgCreateError e)], Ok false).
Proof.
  intros Hvs Hraise. unfold mutation_call. rewrite Hvs.
  apply update_create_raise; assumption.
Qed.

Lemma update_raises_add (st : state L) (all_chunks : list Document) (vs vs' : Index L)
    (e : exn) :
  vector_store st = Some vs →
  add_documents L vs all_chunks = (vs', Some e) →
  update_vector_store all_chunks st
  = (mkState (Some vs') (disk st),
     [Call (mutation_call st all_chunks); Print (MsgAddError e)], Ok false).
Proof.
  intros Hvs Hraise. unfold mutation_call. rewrite Hvs.
  apply (update_add_raise all_chunks st vs vs' e); assumption.
Qed.

(** The save step makes no mutating call, and starts with [makedirs]
    whenever the handler holds an index. *)
Lemma save_calls (st : state L) :
  filter is_mutation (calls (_save_vector_store module_file st).1.2) = [] ∧
  (is_Some (vector_store st) →
   head (calls (_save_vector_store module_file st).1.2)
   = Some (CMakedirs (OsPath.dirname full))).
Proof.
  destruct (vector_store st) as [vs|] eqn:Hvs.
  - destruct (makedirs L (OsPath.dirname full)) as [e|] eqn:Hdir.
    + rewrite (save_makedirs_raise module_file st vs e Hvs Hdir). split; reflexivity.
    + destruct (save_local L vs) as [b|lb e] eqn:Hsave.
      * rewrite (save_ok module_file st vs b Hvs Hdir Hsave). split; reflexivity.
      * rewrite (save_local_raise module_file st vs lb e Hvs Hdir Hsave). split; reflexivity.
  - rewrite (save_nothing module_file st Hvs). split; [reflexivity|].
    intros [? ?]; discriminate.
Qed.

End BatchFacts.

(** ** Ingestion: the index mutation and its failures *)

(** C3.  A batch that yields at least one chunk makes exactly one mutating
    call, on the chunks of the whole batch: [from_documents] when the
    handler has no index, [add_documents] otherwise.  When that call
    succeeds the method goes on with [_save_vector_store] on the updated
    handler: the calls of the batch are the mutation followed by those of
    the save, and when [makedirs] and [save_local] complete the serialised
    new index is what is stored at the index path. *)
Theorem batch_one_mutation_then_persist (L : Library) (module_file : string)
    (file_paths : list string) (st : state L) (all_chunks : list Document) :
  (for_file_paths file_paths [] st).2 = Ok all_chunks →
  all_chunks ≠ [] →
  let r := load_and_process_documents module_file file_paths st in
  let full := full_vector_store_path module_file in
  filter is_mutation (calls r.1.2) = [mutation_call st all_chunks] ∧
  ∀ vs' : Index L,
    mutation_succeeds st all_chunks vs' →
    let saved := _save_vector_store module_file (mkState (Some vs') (disk st)) in
    r.1.1 = saved.1.1 ∧ r.2 = Ok tt ∧
    vector_store r.1.1 = Some vs' ∧
    calls r.1.2 = mutation_call st all_chunks :: calls saved.1.2 ∧
    head (calls saved.1.2) = Some (CMakedirs (OsPath.dirname full)) ∧
    ∀ b : Blob L,
      makedirs L (OsPath.dirname full) = None →
      save_local L vs' = Saved b →
      r.1.1 = mkState (Some vs') (<[full := b]> (disk st)) ∧
      calls r.1.2
      = [mutation_call st all_chunks; CMakedirs (OsPath.dirname full); CSaveLocal full].
Proof.
  intros Hloop Hne r full. split.
  - destruct (vector_store st) as [vs|] eqn:Hvs.
    + destruct (add_documents L vs all_chunks) as [vs1 [e|]] eqn:Hadd.
      * subst r.
        rewrite (batch_stopped module_file file_paths st _ all_chunks _ Hloop Hne
                   (update_raises_add st all_chunks vs vs1 e Hvs Hadd)).
        simpl. rewrite loop_out, calls_app, calls_prints.
        unfold mutation_call. rewrite Hvs. reflexivity.
      * assert (Hok : mutation_succeeds st all_chunks vs1)
          by (unfold mutation_succeeds; rewrite Hvs; exact Hadd).
        destruct (batch_saved module_file file_paths st all_chunks vs1 Hloop Hne Hok)
          as (_ & _ & Hcalls & _).
        fold r in Hcalls. rewrite Hcalls.
        unfold mutation_call. rewrite Hvs.
        rewrite filter_cons_True by done.
        rewrite (proj1 (save_calls module_file _)). reflexivity.
    + destruct (from_documents L all_chunks) as [vs1|e] eqn:Hnew.
      * assert (Hok : mutation_succeeds st all_chunks vs1)
          by (unfold mutation_succeeds; rewrite Hvs; exact Hnew).
        destruct (batch_saved module_file file_paths st all_chunks vs1 Hloop Hne Hok)
          as (_ & _ & Hcalls & _).
        fold r in Hcalls. rewrite Hcalls.
        unfold mutation_call. rewrite Hvs.
        rewrite filter_cons_True by done.
        rewrite (proj1 (save_calls module_file _)). reflexivity.
      * subst r.
        rewrite (batch_stopped module_file file_paths st _ all_chunks _ Hloop Hne
                   (update_raises_create st all_chunks e Hvs Hnew)).
        simpl. rewrite loop_out, calls_app, calls_prints.
        unfold mutation_call. rewrite Hvs. reflexivity.
  - intros vs' Hok saved.
    destruct (batch_saved module_file file_paths st all_chunks vs' Hloop Hne Hok)
      as (Hst & Hres & Hcalls & _).
    fold saved in Hst, Hcalls. fold r in Hst, Hcalls, Hres.
    destruct (save_total module_file (mkState (Some vs') (disk st))) as (d & out & Hsave).
    split; [exact Hst|]. split; [exact Hres|].
    split; [rewrite Hst; subst saved; rewrite Hsave; reflexivity|].
    split; [exact Hcalls|].
    split; [subst saved; apply save_calls; simpl; eauto|].
    intros b Hdir Hsaved.
    pose proof (save_ok module_file (mkState (Some vs') (disk st)) vs' b eq_refl Hdir Hsaved)
      as Hrun.
    fold saved in Hrun. project.
    split.
    + rewrite Hst, Hrun. reflexivity.
    + rewrite Hcalls, Hrun. reflexivity.
Qed.

Lemma batch_one_mutation_then_persist_witness :
  let st := ListStore.fresh in
  let chunks := [ListStore.paris; ListStore.mars] in
  let r := load_and_process_documents ListStore.module_file
             ["/up/fr.txt"; "/up/sheet.xlsx"; "/up/mars.TXT"]%string st in
  (for_file_paths ["/up/fr.txt"; "/up/sheet.xlsx"; "/up/mars.TXT"]%string [] st).2 = Ok chunks ∧
  chunks ≠ [] ∧
  filter is_mutation (calls r.1.2) = [CFromDocuments chunks].
Proof.
  intros st chunks r.
  assert (Hloop : (for_file_paths ["/up/fr.txt"; "/up/sheet.xlsx"; "/up/mars.TXT"]%string
                     [] st).2 = Ok chunks) by (vm_compute; reflexivity).
  assert (Hne : chunks ≠ []) by discriminate.
  split; [exact Hloop|]. split; [exact Hne|].
  exact (proj1 (batch_one_mutation_then_persist ListStore.lib ListStore.module_file
                  _ st chunks Hloop Hne)).
Defined.

(** C2.  A batch that yields no chunk changes neither the handler's index
    nor the file system, makes no library call, returns normally, and its
    last line of output is the failure report
    [No documents were successfully processed. Vector store not updated.] *)
Theorem empty_batch_no_mutation (L : Library) (module_file : string)
    (file_paths : list string) (st : state L) :
  (for_file_paths file_paths [] st).2 = Ok [] →
  let r := load_and_process_documents module_file file_paths st in
  r.1.1 = st ∧
  r.2 = Ok tt ∧
  calls r.1.2 = [] ∧
  r.1.2 = (for_file_paths file_paths [] st).1.2 ++ [Print MsgNoDocuments] ∧
  Print MsgComplete ∉ r.1.2.
Proof.
  intros Hloop r. subst r.
  rewrite load_and_process_documents_run, loop_out, (loop_chunks _ _ _ Hloop).
  rewrite finish_batch_empty. simpl.
  repeat split.
  - rewrite calls_app, calls_prints. reflexivity.
  - intros Hin. apply elem_of_app in Hin as [Hin|Hin].
    + apply list_elem_of_fmap in Hin as (m & Hm & Hin). injection Hm as <-.
      exact (batch_messages_not_complete _ _ Hin).
    + apply list_elem_of_singleton in Hin. discriminate.
Qed.

Lemma empty_batch_no_mutation_witness :
  let st := ListStore.fresh in
  let paths := ["/up/sheet.xlsx"; "/up/broken.pdf"; "/up/nowhere.txt"; "/up/empty.txt"]%string in
  let r := load_and_process_documents ListStore.module_file paths st in
  (for_file_paths paths [] st).2 = Ok [] ∧ r.1.1 = st ∧ calls r.1.2 = [].
Proof.
  intros st paths r.
  assert (Hloop : (for_file_paths paths [] st).2 = Ok []) by (vm_compute; reflexivity).
  pose proof (empty_batch_no_mutation ListStore.lib ListStore.module_file paths st Hloop)
    as (Hst & _ & Hcalls & _).
  split; [exact Hloop|]. split; [exact Hst | exact Hcalls].
Defined.





(** ** Ingestion: a save that fails *)

(** C10.  When the mutation of a batch succeeds and the save then raises
    (in [makedirs] or in [save_local]), the exception is caught inside
    [_save_vector_store]: the method returns normally, its output ends with
    the save error followed by the completion line, and the handler keeps the
    updated index.  The file system holds whatever the failed save left
    behind; when it wrote nothing, it is as before the batch.  Such a run
    exists in which a search on the handler's index returns a chunk that a
    search on the index reloaded from the file system does not. *)
Theorem failed_save_keeps_updated_index :
  (∀ (L : Library) (module_file : string) (file_paths : list string) (st : state L)
     (all_chunks : list Document) (vs' : Index L) (e : exn)
     (left_behind : option (option (Blob L))),
     (for_file_paths file_paths [] st).2 = Ok all_chunks →
     all_chunks ≠ [] →
     mutation_succeeds st all_chunks vs' →
     let full := full_vector_store_path module_file in
     match left_behind with
     | None => makedirs L (OsPath.dirname full) = Some e
     | Some lb => makedirs L (OsPath.dirname full) = None ∧ save_local L vs' = SaveFailed lb e
     end →
     let r := load_and_process_documents module_file file_paths st in
     r.2 = Ok tt ∧
     vector_store r.1.1 = Some vs' ∧
     (∃ pre, r.1.2 = pre ++ [Print (MsgSaveError full e); Print MsgComplete]) ∧
     disk r.1.1 = match left_behind with
                  | Some (Some g) => <[full := g]> (disk st)
                  | _ => disk st
                  end) ∧
  (∃ (file_paths : list string) (query : string) (chunk : Document)
     (in_memory on_disk : Index ListStore.lib),
     let st := ListStore.serving in
     let r := load_and_process_documents ListStore.module_file file_paths st in
     let reloaded := __init__ ListStore.module_file (mkState None (disk r.1.1)) in
     r.2 = Ok tt ∧
     last r.1.2 = Some (Print MsgComplete) ∧
     Print (MsgSaveError ListStore.index_path "PicklingError") ∈ r.1.2 ∧
     vector_store r.1.1 = Some in_memory ∧
     vector_store reloaded.1.1 = Some on_disk ∧
     chunk ∈ similarity_search ListStore.lib in_memory query ∧
     chunk ∉ similarity_search ListStore.lib on_disk query).
Proof.
  split.
  - intros L module_file file_paths st all_chunks vs' e left_behind Hloop Hne Hok full
      Hfail r.
    destruct (batch_saved module_file file_paths st all_chunks vs' Hloop Hne Hok)
      as (Hst & Hres & _ & m & Hout).
    fold r in Hst, Hres, Hout.
    split; [exact Hres|]. rewrite Hst, Hout.
    destruct left_behind as [lb|].
    + destruct Hfail as [Hdir Hsave].
      rewrite (save_local_raise module_file (mkState (Some vs') (disk st)) vs' lb e
                 eq_refl Hdir Hsave).
      project. split; [reflexivity|]. split; [|destruct lb; reflexivity].
      eexists (_ ++ [_; _; _; _]). rewrite <- app_assoc. reflexivity.
    + rewrite (save_makedirs_raise module_file (mkState (Some vs') (disk st)) vs' e
                 eq_refl Hfail).
      simpl. split; [reflexivity|]. split; [|reflexivity].
      eexists (_ ++ [_; _; _]). rewrite <- app_assoc. reflexivity.
  - exists ["/up/lambda.txt"%string], "unpick"%string, ListStore.lambda,
      [ListStore.paris; ListStore.lambda], [ListStore.paris].
    intros st r reloaded.
    assert (Hvs : vector_store r.1.1 = Some [ListStore.paris; ListStore.lambda])
      by (vm_compute; reflexivity).
    assert (Hout : r.1.2
                   = [Print (MsgProcessing "/up/lambda.txt");
                      Print (MsgSplit "/up/lambda.txt" 1);
                      Call (CAddDocuments [ListStore.lambda]); Print MsgAdded;
                      Call (CMakedirs "/srv/rag_app/app/../vector_store");
                      Call (CSaveLocal ListStore.index_path);
                      Print (MsgSaveError ListStore.index_path "PicklingError");
                      Print MsgComplete]) by (vm_compute; reflexivity).
    assert (Hres : r.2 = Ok tt) by (vm_compute; reflexivity).
    assert (Hre : vector_store reloaded.1.1 = Some [ListStore.paris])
      by (vm_compute; reflexivity).
    assert (Hfound : similarity_search ListStore.lib [ListStore.paris; ListStore.lambda]
                       "unpick" = [ListStore.lambda]) by (vm_compute; reflexivity).
    assert (Hmissed : similarity_search ListStore.lib [ListStore.paris] "unpick" = [])
      by (vm_compute; reflexivity).
    split; [exact Hres|]. rewrite Hout.
    split; [reflexivity|].
    split; [do 6 apply list_elem_of_further; apply list_elem_of_here|].
    split; [exact Hvs|]. split; [exact Hre|].
    rewrite Hfound, Hmissed.
    split; [apply list_elem_of_here | apply not_elem_of_nil].
Qed.

(** ** The query path *)

Lemma truthy_false_iff (response : gmap string pyval) :
  truthy (default PyNone (response !! "result"%string)) = false ↔ empty_result response.
Proof.
  unfold empty_result.
  destruct (response !! "result"%string) as [[|s]|]; simpl.
  - split; auto.
  - destruct (String.eqb_spec s ""); simpl; split.
    + intros _. subst. auto.
    + reflexivity.
    + discriminate.
    + intros [H|[H|H]]; [discriminate | discriminate | congruence].
  - split; auto.
Qed.

Lemma get_answer_run {L : Library} (query : string) (st : state L) :
  ∃ out,
    get_answer query st
    = (st, out,
       Ok match vector_store st with
          | None => None
          | Some vs =>
              match qa_response vs query with
              | Ok response =>
                  let answer := default PyNone (response !! "result"%string) in
                  if truthy answer then Some (py_str answer) else None
              | Raise _ => None
              end
          end).
Proof.
  unfold get_answer, qa_response. run_monad.
  destruct (vector_store st) as [vs|]; [|eauto].
  destruct (as_retriever L vs) as [retriever|e]; [|eauto].
  destruct (from_chain_type L retriever) as [qa_chain|e]; [|eauto].
  destruct (invoke L qa_chain query) as [response|e]; [|eauto].
  destruct (truthy (default PyNone (response !! "result"%string))); eauto.
Qed.

(** C5.  [get_answer] never raises and leaves the handler as it was.  It
    returns [None] exactly when there is no index, or one of the chain
    calls ([as_retriever], [from_chain_type], [invoke]) raised, or the
    response holds no answer; otherwise it returns the non-empty text stored
    under [result]. *)
Theorem get_answer_none_iff_failure (L : Library) (query : string) (st : state L) :
  ∃ answer : option string,
    (get_answer query st).2 = Ok answer ∧
    (get_answer query st).1.1 = st ∧
    (answer = None ↔
       vector_store st = None ∨
       ∃ vs, vector_store st = Some vs ∧
             ((∃ e, qa_response vs query = Raise e) ∨
              (∃ response, qa_response vs query = Ok response ∧ empty_result response))) ∧
    (∀ text, answer = Some text ↔
       ∃ vs response,
         vector_store st = Some vs ∧ qa_response vs query = Ok response ∧
         response !! "result"%string = Some (PyStr text) ∧ text ≠ ""%string).
Proof.
  destruct (get_answer_run query st) as [out Hrun]. rewrite Hrun. simpl.
  eexists. split; [reflexivity|]. split; [reflexivity|].
  destruct (vector_store st) as [vs|].
  - destruct (qa_response vs query) as [response|e] eqn:Hqa.
    + pose proof (truthy_false_iff response) as Hempty.
      destruct (truthy (default PyNone (response !! "result"%string))) eqn:Htruthy; simpl.
      * split.
        -- split; [discriminate|].
           intros [Hnone | (vs0 & Hvs0 & [[e He] | (resp & Hresp & Hres)])].
           ++ discriminate.
           ++ injection Hvs0 as <-. congruence.
           ++ injection Hvs0 as <-. rewrite Hqa in Hresp. injection Hresp as <-.
              apply Hempty in Hres. discriminate.
        -- intros text.
           destruct (response !! "result"%string) as [[|s]|] eqn:Hlook; simpl in *;
             try discriminate.
           split.
           ++ intros [= <-]. exists vs, response. repeat split; auto.
              intros ->. discriminate.
           ++ intros (vs0 & resp & Hvs0 & Hresp & Hres & _).
              injection Hvs0 as <-. rewrite Hqa in Hresp. injection Hresp as <-.
              congruence.
      * split.
        -- split; [|reflexivity]. intros _. right. exists vs. split; [reflexivity|].
           right. exists response. split; [exact Hqa|]. apply Hempty. reflexivity.
        -- intros text. split; [discriminate|].
           intros (vs0 & resp & Hvs0 & Hresp & Hres & Hne).
           injection Hvs0 as <-. rewrite Hqa in Hresp. injection Hresp as <-.
           assert (Hno : empty_result response) by (apply Hempty; reflexivity).
           destruct Hno as [Hno|[Hno|Hno]]; rewrite Hno in Hres; try discriminate.
           injection Hres as <-. congruence.
    + split.
      * split; [|reflexivity]. intros _. right. exists vs. split; [reflexivity|].
        left. eauto.
      * intros text. split; [discriminate|].
        intros (vs0 & resp & Hvs0 & Hresp & _). injection Hvs0 as <-. congruence.
  - split.
    + split; auto.
    + intros text. split; [discriminate|].
      intros (vs0 & resp & Hvs0 & _). discriminate.
Qed.

Example get_answer_provider_timeout :
  (get_answer "timeout" ListStore.serving).2 = Ok None ∧
  (get_answer "timeout" ListStore.serving).1.2 = [Print (MsgQAError "APITimeoutError")].
Proof. split; vm_compute; reflexivity. Qed.

Example get_answer_no_index :
  (get_answer "The capital" ListStore.fresh).2 = Ok None ∧
  (get_answer "The capital" ListStore.fresh).1.2 = [Print MsgNotInitialized].
Proof. split; vm_compute; reflexivity. Qed.

Example get_answer_nothing_found :
  (get_answer "Venus" ListStore.serving).2 = Ok None ∧
  (get_answer "Venus" ListStore.serving).1.2 = [Print MsgNoAnswer].
Proof. split; vm_compute; reflexivity. Qed.

(** ** Loading and saving the index *)

Section Persistence.
Context {L : Library}.
Variable module_file : string.

Local Abbreviation full := (full_vector_store_path module_file).

Lemma load_missing (st : state L) :
  disk st !! full = None →
  _load_vector_store module_file st = (st, [Print (MsgNoStore full)], Ok tt).
Proof.
  intros Hmiss. unfold _load_vector_store, FAISS_load_local. run_monad.
  rewrite bool_decide_eq_false_2 by (rewrite Hmiss; intros [? ?]; discriminate).
  reflexivity.
Qed.

Lemma load_raise (st : state L) (b : Blob L) (e : exn) :
  disk st !! full = Some b →
  load_local L b = Raise e →
  _load_vector_store module_file st
  = (mkState None (disk st), [Call (CLoadLocal full); Print (MsgLoadError full e)], Ok tt).
Proof.
  intros Hfound Hraise. unfold _load_vector_store, FAISS_load_local. run_monad.
  rewrite bool_decide_eq_true_2 by eauto.
  rewrite Hfound, Hraise. reflexivity.
Qed.

Lemma load_ok (st : state L) (b : Blob L) (vs : Index L) :
  disk st !! full = Some b →
  load_local L b = Ok vs →
  _load_vector_store module_file st
  = (mkState (Some vs) (disk st), [Call (CLoadLocal full); Print (MsgLoaded full)], Ok tt).
Proof.
  intros Hfound Hok. unfold _load_vector_store, FAISS_load_local. run_monad.
  rewrite bool_decide_eq_true_2 by eauto.
  rewrite Hfound, Hok. reflexivity.
Qed.

Lemma init_run (st : state L) :
  __init__ module_file st = _load_vector_store module_file (mkState None (disk st)).
Proof.
  unfold __init__. run_monad.
  destruct (_load_vector_store module_file (mkState None (disk st))) as [[st' out] r].
  destruct r; reflexivity.
Qed.

End Persistence.

(** C6.  Loading never raises and never writes to the file system.  When
    nothing is stored at the index path no load is attempted and the
    handler is left as it was, so a handler under construction, whose
    attribute was just set to [None], has no index.  When [load_local]
    raises on what is stored there, the exception is caught, the error is
    printed and the handler has no index.  When it succeeds the handler
    holds the loaded index. *)
Theorem load_vector_store_never_raises (L : Library) (module_file : string)
    (st : state L) :
  let full := full_vector_store_path module_file in
  let r := _load_vector_store module_file st in
  let booted := __init__ module_file st in
  r.2 = Ok tt ∧ booted.2 = Ok tt ∧
  disk r.1.1 = disk st ∧ disk booted.1.1 = disk st ∧
  (disk st !! full = None →
     r.1.1 = st ∧ r.1.2 = [Print (MsgNoStore full)] ∧
     vector_store booted.1.1 = None) ∧
  (∀ (b : Blob L) (e : exn),
     disk st !! full = Some b →
     load_local L b = Raise e →
     vector_store r.1.1 = None ∧ vector_store booted.1.1 = None ∧
     r.1.2 = [Call (CLoadLocal full); Print (MsgLoadError full e)]) ∧
  (∀ (b : Blob L) (vs : Index L),
     disk st !! full = Some b →
     load_local L b = Ok vs →
     vector_store r.1.1 = Some vs ∧ vector_store booted.1.1 = Some vs).
Proof.
  intros full r booted. subst r booted. rewrite init_run.
  destruct (disk st !! full) as [b|] eqn:Hdisk.
  - destruct (load_local L b) as [vs|e] eqn:Hload.
    + rewrite (load_ok module_file st b vs Hdisk Hload).
      rewrite (load_ok module_file (mkState None (disk st)) b vs Hdisk Hload).
      project. do 4 (split; [reflexivity|]).
      split; [discriminate|]. split.
      * intros b0 e [= <-] Hraise. congruence.
      * intros b0 vs0 [= <-] Hok. rewrite Hload in Hok. injection Hok as <-. auto.
    + rewrite (load_raise module_file st b e Hdisk Hload).
      rewrite (load_raise module_file (mkState None (disk st)) b e Hdisk Hload).
      project. do 4 (split; [reflexivity|]).
      split; [discriminate|]. split.
      * intros b0 e0 [= <-] Hraise. rewrite Hload in Hraise. injection Hraise as <-. auto.
      * intros b0 vs0 [= <-] Hok. congruence.
  - rewrite (load_missing module_file st Hdisk).
    rewrite (load_missing module_file (mkState None (disk st)) Hdisk).
    project. do 4 (split; [reflexivity|]).
    split; [auto|]. split; intros; discriminate.
Qed.

Lemma load_vector_store_never_raises_witness :
  let corrupt : state ListStore.lib :=
    @mkState ListStore.lib (Some [ListStore.paris])
      (<[ListStore.index_path := ListStore.Garbage]> ∅) in
  (∅ : gmap string ListStore.blob) !! ListStore.index_path = None ∧
  vector_store (__init__ ListStore.module_file (@mkState ListStore.lib None ∅)).1.1 = None ∧
  disk corrupt !! ListStore.index_path = Some ListStore.Garbage ∧
  load_local ListStore.lib ListStore.Garbage = Raise "RuntimeError: index file is corrupt" ∧
  vector_store (_load_vector_store ListStore.module_file corrupt).1.1 = None.
Proof.
  intros corrupt.
  assert (Hmiss : (∅ : gmap string ListStore.blob) !! ListStore.index_path = None)
    by apply lookup_empty.
  assert (Hdisk : disk corrupt !! ListStore.index_path = Some ListStore.Garbage)
    by apply lookup_insert_eq.
  assert (Hload : load_local ListStore.lib ListStore.Garbage
                  = Raise "RuntimeError: index file is corrupt") by reflexivity.
  pose proof (load_vector_store_never_raises ListStore.lib ListStore.module_file
                (@mkState ListStore.lib None ∅)) as (_ & _ & _ & _ & Hnone & _).
  pose proof (load_vector_store_never_raises ListStore.lib ListStore.module_file corrupt)
    as (_ & _ & _ & _ & _ & Hbad & _).
  split; [exact Hmiss|].
  split; [exact (proj2 (proj2 (Hnone Hmiss)))|].
  split; [exact Hdisk|]. split; [exact Hload|].
  exact (proj1 (Hbad ListStore.Garbage _ Hdisk Hload)).
Defined.




Example round_trip_runs :
  let saved := _save_vector_store ListStore.module_file CrudeStore.capitals in
  let loaded := _load_vector_store ListStore.module_file
                  (@mkState CrudeStore.lib None (disk saved.1.1)) in
  calls saved.1.2
  = [CMakedirs "/srv/rag_app/app/../vector_store";
     CSaveLocal "/srv/rag_app/app/../vector_store/faiss_index"] ∧
  vector_store loaded.1.1 = Some [CrudeStore.rome; ListStore.paris] ∧
  similarity_search CrudeStore.lib [ListStore.paris; CrudeStore.rome] "The capital"
  = [ListStore.paris; CrudeStore.rome] ∧
  similarity_search CrudeStore.lib [CrudeStore.rome; ListStore.paris] "The capital"
  = [CrudeStore.rome; ListStore.paris].
Proof. repeat split; vm_compute; reflexivity. Qed.

(** ** Case folding and the extension *)

Module CaseFold.
Import PyStr OsPath.












Lemma of_to_string (p : chars) : of_string (to_string p) = p.
Proof. apply list_ascii_of_string_of_list_ascii. Qed.

Lemma to_of_string (s : string) : to_string (of_string s) = s.
Proof. apply string_of_list_ascii_of_string. Qed.


End CaseFold.



Example upper_and_mixed_case_extensions :
  select_loader (file_ext_of "/up/SCAN.PDF") = Some PyPDFLoader ∧
  select_loader (file_ext_of "/up/notes.Txt") = Some TextLoader ∧
  select_loader (file_ext_of "/up/cv.DocX") = Some Docx2txtLoader ∧
  select_loader (file_ext_of "/up/sheet.XLSX") = None.
Proof. repeat split; vm_compute; reflexivity. Qed.

(** * Further properties of the handler *)

Section HandlerInvariants.
Context {L : Library}.
Variable module_file : string.

Local Abbreviation full := (full_vector_store_path module_file).

(** Every way the create-or-add step can end. *)
Lemma update_cases (chunks : list Document) (st : state L) :
  ∃ (v : option (Index L)) (m : message) (proceed : bool),
    update_vector_store chunks st
    = (mkState v (disk st), [Call (mutation_call st chunks); Print m], Ok proceed) ∧
    (is_Some (vector_store st) → is_Some v) ∧
    (proceed = true → is_Some v).
Proof.
  destruct (vector_store st) as [vs|] eqn:Hvs.
  - destruct (add_documents L vs chunks) as [vs' [e|]] eqn:Hadd.
    + rewrite (update_raises_add st chunks vs vs' e Hvs Hadd). eauto 10.
    + assert (Hok : mutation_succeeds st chunks vs')
        by (unfold mutation_succeeds; rewrite Hvs; exact Hadd).
      destruct (update_succeeds st chunks vs' Hok) as [m Hup]. rewrite Hup. eauto 10.
  - destruct (from_documents L chunks) as [vs'|e] eqn:Hnew.
    + assert (Hok : mutation_succeeds st chunks vs')
        by (unfold mutation_succeeds; rewrite Hvs; exact Hnew).
      destruct (update_succeeds st chunks vs' Hok) as [m Hup]. rewrite Hup. eauto 10.
    + rewrite (update_raises_create st chunks e Hvs Hnew).
      assert (Hst : st = mkState None (disk st))
        by (destruct st; simpl in *; congruence).
      exists None, (MsgCreateError e), false.
      split; [rewrite <- Hst; reflexivity|].
      split; [auto | discriminate].
Qed.

(** What the steps after the loop satisfy, whatever the library does. *)
Lemma finish_batch_inv (chunks : list Document) (st : state L) :
  let r := finish_batch module_file chunks st in
  r.2 = Ok tt ∧
  (is_Some (vector_store st) → is_Some (vector_store r.1.1)) ∧
  (chunks ≠ [] → ∃ rest, calls r.1.2 = mutation_call st chunks :: rest ∧
                         filter is_mutation rest = []).
Proof.
  intros r. subst r.
  destruct chunks as [|c chunks].
  - rewrite finish_batch_empty. project.
    split; [reflexivity|]. split; [auto|]. congruence.
  - assert (Hne : c :: chunks ≠ []) by discriminate.
    destruct (update_cases (c :: chunks) st) as (v & m & proceed & Hup & Hkeep & Hgo).
    destruct proceed.
    + destruct (save_total module_file (mkState v (disk st))) as (d & out & Hsave).
      rewrite (finish_batch_save module_file _ st _ _ _ _ Hne Hup Hsave).
      cbn [fst snd vector_store disk].
      split; [reflexivity|]. split; [intros _; apply Hgo; reflexivity|].
      intros _. exists (calls out). split.
      * change ([Call (mutation_call st (c :: chunks)); Print m]
                ++ out ++ [Print MsgComplete])
          with ([Call (mutation_call st (c :: chunks))]
                ++ (Print <$> [m]) ++ out ++ (Print <$> [MsgComplete])).
        rewrite !calls_app, !calls_prints, app_nil_r. reflexivity.
      * pose proof (proj1 (save_calls module_file (mkState v (disk st)))) as Hcalls.
        rewrite Hsave in Hcalls. exact Hcalls.
    + rewrite (finish_batch_stop module_file _ st _ _ Hne Hup). project.
      split; [reflexivity|]. split; [exact Hkeep|].
      intros _. exists []. split; reflexivity.
Qed.

Lemma batch_inv (file_paths : list string) (st : state L) :
  let r := load_and_process_documents module_file file_paths st in
  r.2 = Ok tt ∧
  (is_Some (vector_store st) → is_Some (vector_store r.1.1)).
Proof.
  intros r. subst r. rewrite load_and_process_documents_run.
  pose proof (finish_batch_inv (batch_chunks (disk st) file_paths) st)
    as (Hres & Hkeep & _).
  destruct (finish_batch module_file (batch_chunks (disk st) file_paths) st)
    as [[st' out] res].
  auto.
Qed.

(** The one mutating call of a batch that yields chunks. *)
Lemma batch_mutation (file_paths : list string) (st : state L) :
  batch_chunks (disk st) file_paths ≠ [] →
  filter is_mutation (calls (load_and_process_documents module_file file_paths st).1.2)
  = [mutation_call st (batch_chunks (disk st) file_paths)].
Proof.
  intros Hne. rewrite load_and_process_documents_run.
  pose proof (finish_batch_inv (batch_chunks (disk st) file_paths) st)
    as (_ & _ & Hcalls).
  destruct (Hcalls Hne) as (rest & Hc & Hrest).
  destruct (finish_batch module_file (batch_chunks (disk st) file_paths) st)
    as [[st' out] res].
  cbn [fst snd] in *. rewrite calls_app, calls_prints, Hc. cbn [app].
  rewrite filter_cons_True
    by (unfold mutation_call; destruct (vector_store st); exact I).
  rewrite Hrest. reflexivity.
Qed.

End HandlerInvariants.

(** ** Files that load and split *)

Section SplitFiles.
Context {L : Library}.

Lemma loader_for_select (file_ext : string) (ld : loader) :
  loader_for file_ext ld ↔ select_loader file_ext = Some ld.
Proof.
  split.
  - intros []; reflexivity.
  - unfold select_loader.
    destruct (String.eqb_spec file_ext ".pdf") as [-> |_]; [intros [= <-]; constructor|].
    destruct (String.eqb_spec file_ext ".txt") as [-> |_]; [intros [= <-]; constructor|].
    destruct (String.eqb_spec file_ext ".docx") as [-> |_]; [intros [= <-]; constructor|].
    discriminate.
Qed.

Lemma splits_into_file (d : gmap string (Blob L)) (file_path : string)
    (chunks : list Document) :
  splits_into d file_path chunks →
  file_chunks d file_path = chunks ∧
  file_message d file_path = MsgSplit file_path (length chunks).
Proof.
  intros (content & ld & documents & Hfile & Hld & Hload & Hsplit).
  apply loader_for_select in Hld.
  unfold file_chunks, file_message. rewrite Hfile, Hld, Hload, Hsplit. auto.
Qed.

Lemma splits_into_batch (d : gmap string (Blob L)) (file_paths : list string)
    (chunks : list (list Document)) :
  Forall2 (splits_into d) file_paths chunks →
  batch_chunks d file_paths = concat chunks.
Proof.
  induction 1 as [|f c paths cs Hf _ IH]; [reflexivity|].
  unfold batch_chunks. cbn [fmap list_fmap concat]. fold (batch_chunks d paths).
  rewrite IH, (proj1 (splits_into_file _ _ _ Hf)). reflexivity.
Qed.

Lemma file_message_printed (d : gmap string (Blob L)) (file_paths : list string)
    (file_path : string) :
  file_path ∈ file_paths → file_message d file_path ∈ batch_messages d file_paths.
Proof.
  induction file_paths as [|p paths IH]; intros Hin.
  - apply elem_of_nil in Hin. contradiction.
  - unfold batch_messages. cbn [fmap list_fmap concat]. fold (batch_messages d paths).
    apply elem_of_cons in Hin as [-> | Hin].
    + cbn [app]. apply elem_of_cons. right. apply elem_of_cons. left. reflexivity.
    + cbn [app]. apply elem_of_cons. right. apply elem_of_cons. right.
      apply IH. exact Hin.
Qed.

Lemma splits_into_lines (d : gmap string (Blob L)) (out : list event)
    (file_paths : list string) (chunks : list (list Document)) :
  Forall2 (splits_into d) file_paths chunks →
  (∀ f, f ∈ file_paths → Print (file_message d f) ∈ out) →
  Forall2 (λ f c, Print (MsgSplit f (length c)) ∈ out) file_paths chunks.
Proof.
  induction 1 as [|f c paths cs Hf _ IH]; intros Hout; constructor.
  - rewrite <- (proj2 (splits_into_file _ _ _ Hf)). apply Hout. apply elem_of_cons. auto.
  - apply IH. intros g Hg. apply Hout. apply elem_of_cons. auto.
Qed.

End SplitFiles.

(** C4.  A file that does not exist, or whose lower-cased extension is
    none of [.pdf], [.txt], [.docx], only gets its skip line printed: the
    iteration leaves [all_chunks] and the state as they were, and the loop
    goes on.  The batch then runs exactly as the batch without that file:
    same final index and file system, same library calls, same outcome.
    When each of the other files is on the file system with one of the three
    extensions, and its loader and the splitter complete, the loop prints its
    success line and ends with the chunks of those files, in batch order, and
    when there is at least one chunk the one mutating call of the batch,
    [from_documents] without an index and [add_documents] with one, is made
    on exactly these chunks. *)
Theorem skipped_file_does_not_abort_batch (L : Library) (module_file : string)
    (st : state L) (before after : list string) (skipped : string) :
  disk st !! skipped = None ∨ ¬ supported_ext (file_ext_of skipped) →
  let with_file := before ++ skipped :: after in
  let without := before ++ after in
  let r := load_and_process_documents module_file with_file st in
  (∀ all_chunks : list Document,
     process_file skipped all_chunks st
     = (st,
        [Print (MsgProcessing skipped);
         Print (if bool_decide (is_Some (disk st !! skipped))
                then MsgUnsupported (file_ext_of skipped) skipped
                else MsgNotFound skipped)],
        Ok all_chunks)) ∧
  (for_file_paths with_file [] st).2 = (for_file_paths without [] st).2 ∧
  r.1.1 = (load_and_process_documents module_file without st).1.1 ∧
  calls r.1.2 = calls (load_and_process_documents module_file without st).1.2 ∧
  r.2 = (load_and_process_documents module_file without st).2 ∧
  ∀ chunks_before chunks_after : list (list Document),
    Forall2 (splits_into (disk st)) before chunks_before →
    Forall2 (splits_into (disk st)) after chunks_after →
    let all_chunks := concat chunks_before ++ concat chunks_after in
    (for_file_paths with_file [] st).2 = Ok all_chunks ∧
    Forall2 (λ f c, Print (MsgSplit f (length c)) ∈ r.1.2) before chunks_before ∧
    Forall2 (λ f c, Print (MsgSplit f (length c)) ∈ r.1.2) after chunks_after ∧
    (all_chunks ≠ [] →
     filter is_mutation (calls r.1.2)
     = [match vector_store st with
        | None => CFromDocuments all_chunks
        | Some _ => CAddDocuments all_chunks
        end]).
Proof.
  intros Hskip with_file without r.
  assert (Hnone : file_chunks (disk st) skipped = []).
  { unfold file_chunks. destruct Hskip as [-> | Hext]; [reflexivity|].
    apply select_loader_none in Hext. rewrite Hext.
    destruct (disk st !! skipped); reflexivity. }
  assert (Hmsg : file_message (disk st) skipped
                 = if bool_decide (is_Some (disk st !! skipped))
                   then MsgUnsupported (file_ext_of skipped) skipped
                   else MsgNotFound skipped).
  { unfold file_message. destruct Hskip as [-> | Hext]; [reflexivity|].
    apply select_loader_none in Hext. rewrite Hext.
    destruct (disk st !! skipped); reflexivity. }
  assert (Hchunks : batch_chunks (disk st) with_file = batch_chunks (disk st) without).
  { subst with_file without. rewrite !batch_chunks_app.
    unfold batch_chunks at 2. simpl. rewrite Hnone. reflexivity. }
  split.
  { intros all_chunks. rewrite process_file_run, Hnone, Hmsg, app_nil_r. reflexivity. }
  split.
  { rewrite !for_file_paths_run. simpl. rewrite Hchunks. reflexivity. }
  assert (Hsame : r.1.1 = (load_and_process_documents module_file without st).1.1 ∧
                  calls r.1.2 = calls (load_and_process_documents module_file without st).1.2 ∧
                  r.2 = (load_and_process_documents module_file without st).2).
  { subst r. rewrite !load_and_process_documents_run, Hchunks.
    destruct (finish_batch module_file (batch_chunks (disk st) without) st)
      as [[st' out] res].
    simpl. rewrite !calls_app, !calls_prints. auto. }
  destruct Hsame as (Hst & Hcalls & Hres).
  split; [exact Hst|]. split; [exact Hcalls|]. split; [exact Hres|].
  intros chunks_before chunks_after Hbefore Hafter all_chunks.
  assert (Hall : batch_chunks (disk st) with_file = all_chunks).
  { rewrite Hchunks. subst without all_chunks. rewrite batch_chunks_app.
    rewrite (splits_into_batch _ _ _ Hbefore), (splits_into_batch _ _ _ Hafter).
    reflexivity. }
  assert (Hlines : ∀ f, f ∈ with_file → Print (file_message (disk st) f) ∈ r.1.2).
  { intros f Hf. subst r. rewrite load_and_process_documents_run.
    destruct (finish_batch module_file (batch_chunks (disk st) with_file) st)
      as [[st' out] res].
    cbn [fst snd]. apply elem_of_app. left.
    apply list_elem_of_fmap. exists (file_message (disk st) f).
    split; [reflexivity|]. apply file_message_printed. exact Hf. }
  split.
  { rewrite for_file_paths_run. simpl. rewrite Hall. reflexivity. }
  split.
  { apply (splits_into_lines _ _ _ _ Hbefore). intros f Hf. apply Hlines.
    subst with_file. apply elem_of_app. auto. }
  split.
  { apply (splits_into_lines _ _ _ _ Hafter). intros f Hf. apply Hlines.
    subst with_file. apply elem_of_app. right. apply elem_of_cons. auto. }
  intros Hne. subst r.
  rewrite (batch_mutation module_file with_file st) by (rewrite Hall; exact Hne).
  rewrite Hall. reflexivity.
Qed.

Lemma skipped_file_does_not_abort_batch_witness :
  let st := ListStore.fresh in
  let r := load_and_process_documents ListStore.module_file
             ["/up/fr.txt"; "/up/sheet.xlsx"; "/up/mars.TXT"]%string st in
  ¬ supported_ext (file_ext_of "/up/sheet.xlsx") ∧
  splits_into (disk st) "/up/fr.txt" [ListStore.paris] ∧
  splits_into (disk st) "/up/mars.TXT" [ListStore.mars] ∧
  (for_file_paths ["/up/fr.txt"; "/up/sheet.xlsx"; "/up/mars.TXT"]%string [] st).2
  = Ok [ListStore.paris; ListStore.mars] ∧
  Print (MsgSplit "/up/fr.txt" 1) ∈ r.1.2 ∧
  Print (MsgSplit "/up/mars.TXT" 1) ∈ r.1.2 ∧
  filter is_mutation (calls r.1.2) = [CFromDocuments [ListStore.paris; ListStore.mars]].
Proof.
  intros st r.
  assert (Hext : ¬ supported_ext (file_ext_of "/up/sheet.xlsx")).
  { apply select_loader_none. vm_compute. reflexivity. }
  assert (Hfr : splits_into (disk st) "/up/fr.txt" [ListStore.paris]).
  { exists (ListStore.FileText "The capital of France is Paris."), TextLoader,
      [ListStore.paris].
    split; [vm_compute; reflexivity|].
    split; [apply loader_for_select; vm_compute; reflexivity|].
    split; vm_compute; reflexivity. }
  assert (Hmars : splits_into (disk st) "/up/mars.TXT" [ListStore.mars]).
  { exists (ListStore.FileText "Mars is a planet."), TextLoader, [ListStore.mars].
    split; [vm_compute; reflexivity|].
    split; [apply loader_for_select; vm_compute; reflexivity|].
    split; vm_compute; reflexivity. }
  destruct (skipped_file_does_not_abort_batch ListStore.lib ListStore.module_file st
              ["/up/fr.txt"%string] ["/up/mars.TXT"%string] "/up/sheet.xlsx"%string
              (or_intror Hext)) as (_ & _ & _ & _ & _ & Hothers).
  assert (Hbefore : Forall2 (splits_into (disk st)) ["/up/fr.txt"%string]
                      [[ListStore.paris]]) by (repeat constructor; exact Hfr).
  assert (Hafter : Forall2 (splits_into (disk st)) ["/up/mars.TXT"%string]
                     [[ListStore.mars]]) by (repeat constructor; exact Hmars).
  destruct (Hothers [[ListStore.paris]] [[ListStore.mars]] Hbefore Hafter)
    as (Hloop & Hlb & Hla & Hmut).
  apply Forall2_cons in Hlb as [Hlb _]. apply Forall2_cons in Hla as [Hla _].
  split; [exact Hext|]. split; [exact Hfr|]. split; [exact Hmars|].
  split; [exact Hloop|]. split; [exact Hlb|]. split; [exact Hla|].
  apply Hmut. discriminate.
Defined.

(** X3.  The per-file loop never raises and changes neither the handler
    nor the file system.  What a path adds to [all_chunks] depends on that
    path and the file system alone, so the chunks of a batch are those of its
    paths one after the other in batch order; a path listed twice contributes
    twice, and the loop over two lists in a row yields the chunks of the
    first followed by those of the second. *)
Theorem loop_aggregates_in_batch_order (L : Library) (l1 l2 : list string)
    (all_chunks : list Document) (st : state L) :
  ∃ c1 c2 : list Document,
    (for_file_paths l1 [] st).2 = Ok c1 ∧
    (for_file_paths l2 [] st).2 = Ok c2 ∧
    (for_file_paths (l1 ++ l2) all_chunks st).2 = Ok (all_chunks ++ c1 ++ c2) ∧
    (for_file_paths (l1 ++ l2) all_chunks st).1.1 = st ∧
    calls (for_file_paths (l1 ++ l2) all_chunks st).1.2 = [] ∧
    ∀ p : string,
      ∃ c : list Document,
        (for_file_paths [p] [] st).2 = Ok c ∧
        (for_file_paths (l1 ++ p :: p :: l2) [] st).2 = Ok (c1 ++ c ++ c ++ c2).
Proof.
  exists (batch_chunks (disk st) l1), (batch_chunks (disk st) l2).
  rewrite !for_file_paths_run. project.
  split; [reflexivity|]. split; [reflexivity|].
  split; [rewrite batch_chunks_app; reflexivity|].
  split; [reflexivity|]. split; [apply calls_prints|].
  intros p. exists (file_chunks (disk st) p).
  rewrite !for_file_paths_run. project.
  split.
  - unfold batch_chunks. simpl. rewrite app_nil_r. reflexivity.
  - rewrite batch_chunks_app. reflexivity.
Qed.

(** X4.  A file whose loader or whose splitter raises is isolated like a
    skipped one: the iteration prints the error with the exception's
    message, leaves [all_chunks] and the state as they were, and the batch
    ends in the same state, with the same library calls and outcome, as the
    batch without that file. *)
Theorem failing_file_does_not_abort_batch (L : Library) (module_file : string)
    (st : state L) (before after : list string) (failing : string)
    (content : Blob L) (ld : loader) (e : exn) :
  disk st !! failing = Some content →
  select_loader (file_ext_of failing) = Some ld →
  (loader_load L ld failing content = Raise e ∨
   ∃ documents, loader_load L ld failing content = Ok documents ∧
                split_documents L chunk_size chunk_overlap documents = Raise e) →
  let with_file := before ++ failing :: after in
  let without := before ++ after in
  (∀ all_chunks : list Document,
     process_file failing all_chunks st
     = (st, [Print (MsgProcessing failing); Print (MsgFileError failing e)],
        Ok all_chunks)) ∧
  (for_file_paths with_file [] st).2 = (for_file_paths without [] st).2 ∧
  (load_and_process_documents module_file with_file st).1.1
  = (load_and_process_documents module_file without st).1.1 ∧
  calls (load_and_process_documents module_file with_file st).1.2
  = calls (load_and_process_documents module_file without st).1.2 ∧
  (load_and_process_documents module_file with_file st).2
  = (load_and_process_documents module_file without st).2.
Proof.
  intros Hfile Hld Hraise with_file without.
  assert (Hnone : file_chunks (disk st) failing = [] ∧
                  file_message (disk st) failing = MsgFileError failing e).
  { unfold file_chunks, file_message. rewrite Hfile, Hld.
    destruct Hraise as [-> | (documents & -> & ->)]; split; reflexivity. }
  destruct Hnone as [Hnone Hmsg].
  assert (Hchunks : batch_chunks (disk st) with_file = batch_chunks (disk st) without).
  { subst with_file without. rewrite !batch_chunks_app.
    unfold batch_chunks at 2. simpl. rewrite Hnone. reflexivity. }
  split.
  { intros all_chunks. rewrite process_file_run, Hnone, Hmsg, app_nil_r. reflexivity. }
  split.
  { rewrite !for_file_paths_run. project. rewrite Hchunks. reflexivity. }
  rewrite !load_and_process_documents_run, Hchunks.
  destruct (finish_batch module_file (batch_chunks (disk st) without) st)
    as [[st' out] res].
  project. rewrite !calls_app, !calls_prints. auto.
Qed.

Lemma failing_file_does_not_abort_batch_witness :
  let st := ListStore.fresh in
  disk st !! "/up/broken.pdf"%string = Some ListStore.Garbage ∧
  select_loader (file_ext_of "/up/broken.pdf") = Some PyPDFLoader ∧
  loader_load ListStore.lib PyPDFLoader "/up/broken.pdf" ListStore.Garbage
  = Raise "ValueError: not a document" ∧
  (for_file_paths ["/up/fr.txt"; "/up/broken.pdf"; "/up/mars.TXT"]%string [] st).2
  = (for_file_paths ["/up/fr.txt"; "/up/mars.TXT"]%string [] st).2.
Proof.
  intros st.
  assert (Hfile : disk st !! "/up/broken.pdf"%string = Some ListStore.Garbage)
    by (vm_compute; reflexivity).
  assert (Hld : select_loader (file_ext_of "/up/broken.pdf") = Some PyPDFLoader)
    by (vm_compute; reflexivity).
  assert (Hraise : loader_load ListStore.lib PyPDFLoader "/up/broken.pdf" ListStore.Garbage
                   = Raise "ValueError: not a document") by reflexivity.
  split; [exact Hfile|]. split; [exact Hld|]. split; [exact Hraise|].
  exact (proj1 (proj2 (failing_file_does_not_abort_batch ListStore.lib
                         ListStore.module_file st ["/up/fr.txt"%string]
                         ["/up/mars.TXT"%string] "/up/broken.pdf"%string
                         ListStore.Garbage PyPDFLoader _ Hfile Hld (or_introl Hraise)))).
Defined.

(** * Properties of the HTTP layer *)

Ltac run_endpoint :=
  cbn [fst snd vector_store disk app Main.filename Main.write] in *.

Section EndpointFacts.
Context {L : Library}.
Variable main_file : string.
Variable module_file : string.

Local Abbreviation upload_path := (Main.upload_path main_file).

Lemma handler_events_app (a b : list Main.main_event) :
  Main.handler_events (a ++ b) = Main.handler_events a ++ Main.handler_events b.
Proof. unfold Main.handler_events. apply omap_app. Qed.

Lemma handler_events_handler (out : list event) :
  Main.handler_events (Main.Handler <$> out) = out.
Proof. induction out as [|ev out IH]; simpl; [reflexivity | f_equal; exact IH]. Qed.

Lemma save_file_run (file : Main.UploadFile (Blob L)) (lists : list string * list string)
    (st : state L) :
  ∃ d out,
    Main.save_file main_file file lists st
    = (mkState (vector_store st) d, out,
       match Main.stored file with
       | Some name => (lists.1 ++ [upload_path name], lists.2 ++ [name])
       | None => lists
       end) ∧
    Main.handler_events out = [] ∧
    (∀ b name, Main.write file = Saved b → Main.stored file = Some name →
               d = <[upload_path name := b]> (disk st)).
Proof.
  unfold Main.save_file, Main.stored.
  destruct (Main.no_filename file) eqn:Hname.
  - exists (disk st), [Main.MainPrint Main.WarnNoFilename].
    rewrite state_eta. repeat split; discriminate.
  - destruct file as [[name|] w]; unfold Main.no_filename in Hname;
      cbn [Main.filename Main.write default] in *; [|discriminate].
    cbv zeta.
    destruct w as [b|lb e].
    + eexists _, _. split; [reflexivity|]. split; [reflexivity|].
      intros b0 name0 [= <-] [= <-]. reflexivity.
    + eexists _, _. split; [reflexivity|]. split; [reflexivity|]. discriminate.
Qed.

Lemma for_files_run (files : list (Main.UploadFile (Blob L)))
    (lists : list string * list string) (st : state L) :
  ∃ d out,
    Main.for_files main_file files lists st
    = (mkState (vector_store st) d, out,
       (lists.1 ++ (upload_path <$> Main.stored_names files),
        lists.2 ++ Main.stored_names files)) ∧
    Main.handler_events out = [].
Proof.
  revert lists st.
  induction files as [|file rest IH]; intros lists st; simpl.
  - exists (disk st), []. rewrite state_eta, !app_nil_r.
    destruct lists; split; reflexivity.
  - destruct (save_file_run file lists st) as (d1 & out1 & Hrun1 & Hev1 & _).
    rewrite Hrun1.
    destruct (IH match Main.stored file with
                 | Some name => (lists.1 ++ [upload_path name], lists.2 ++ [name])
                 | None => lists
                 end (mkState (vector_store st) d1)) as (d2 & out2 & Hrun2 & Hev2).
    rewrite Hrun2. exists d2, (out1 ++ out2).
    split.
    + unfold Main.stored_names. simpl.
      destruct (Main.stored file) as [name|]; simpl; [|reflexivity].
      rewrite <- !app_assoc. reflexivity.
    + rewrite handler_events_app, Hev1, Hev2. reflexivity.
Qed.

End EndpointFacts.

Section UploadFacts.
Context {L : Library}.
Variable main_file : string.
Variable module_file : string.

Local Abbreviation upload_path := (Main.upload_path main_file).

(** The endpoint, once the loop has run: with nothing recorded it stops
    with 400, otherwise it is the handler's batch on the recorded paths. *)
Lemma upload_documents_run (files : list (Main.UploadFile (Blob L))) (st : state L) :
  ∃ d out,
    Main.for_files main_file files ([], []) st
    = (mkState (vector_store st) d, out,
       (upload_path <$> Main.stored_names files, Main.stored_names files)) ∧
    Main.handler_events out = [] ∧
    Main.upload_documents main_file module_file files st
    = match Main.stored_names files with
      | [] => (mkState (vector_store st) d, out,
               Main.HTTPException 400 "No files were successfully saved.")
      | _ :: _ =>
          let batch := load_and_process_documents module_file
                         (upload_path <$> Main.stored_names files)
                         (mkState (vector_store st) d) in
          (batch.1.1, out ++ (Main.Handler <$> batch.1.2),
           Main.Response
             (Main.mkUploadResponse
                ("Successfully uploaded and initiated processing for "
                 +:+ pretty (length (Main.stored_names files)) +:+ " files.")
                (Main.stored_names files)))
      end.
Proof.
  destruct (for_files_run main_file files ([], []) st) as (d & out & Hrun & Hev).
  cbn [fst snd app] in Hrun.
  exists d, out. split; [exact Hrun|]. split; [exact Hev|].
  unfold Main.upload_documents. rewrite Hrun.
  destruct (Main.stored_names files) as [|name names] eqn:Hnames; [reflexivity|].
  remember (upload_path <$> name :: names) as paths eqn:Hpaths.
  destruct paths as [|p ps]; [discriminate|].
  pose proof (proj1 (batch_inv module_file (p :: ps) (mkState (vector_store st) d)))
    as Hok.
  destruct (load_and_process_documents module_file (p :: ps)
              (mkState (vector_store st) d)) as [[st2 out2] res].
  cbn [snd] in Hok. subst res. reflexivity.
Qed.

End UploadFacts.


(** X5.  How [upload_documents] ends.  When no file was recorded (each one
    has no filename or its write raised) it answers 400 without calling the
    handler, whose index is untouched.  Otherwise it calls
    [load_and_process_documents] once, on the paths of the recorded files in
    upload order, and its answer follows the outcome of that call: 200 with
    the number of the recorded files and their names in upload order when
    the call returns, 500 with the message of the exception when it
    raises. *)
Theorem upload_documents_outcome (L : Library) (main_file module_file : string)
    (files : list (Main.UploadFile (Blob L))) (st : state L) :
  let r := Main.upload_documents main_file module_file files st in
  let names := Main.stored_names files in
  (names = [] →
   r.2 = Main.HTTPException 400 "No files were successfully saved." ∧
   vector_store r.1.1 = vector_store st ∧
   Main.handler_events r.1.2 = []) ∧
  (names ≠ [] →
   ∃ st1 : state L,
     st1 = (Main.for_files main_file files ([], []) st).1.1 ∧
     vector_store st1 = vector_store st ∧
     let batch := load_and_process_documents module_file
                    (Main.upload_path main_file <$> names) st1 in
     r.1.1 = batch.1.1 ∧
     Main.handler_events r.1.2 = batch.1.2 ∧
     match batch.2 with
     | Ok _ =>
         r.2 = Main.Response
                 (Main.mkUploadResponse
                    ("Successfully uploaded and initiated processing for "
                     +:+ pretty (length names) +:+ " files.")
                    names)
     | Raise e =>
         r.2 = Main.HTTPException 500 ("Error processing documents: " +:+ e)
     end).
Proof.
  intros r names. subst r names.
  destruct (for_files_run main_file files ([], []) st) as (d & out & Hloop & Hev).
  cbn [fst snd app] in Hloop.
  unfold Main.upload_documents. rewrite Hloop.
  destruct (Main.stored_names files) as [|name names]; cbn [fst snd].
  - split; [auto | congruence].
  - split; [discriminate|]. intros _.
    exists (mkState (vector_store st) d).
    split; [reflexivity|]. split; [reflexivity|]. cbv zeta.
    remember (Main.upload_path main_file <$> name :: names) as paths eqn:Hpaths.
    destruct paths as [|p ps]; [discriminate|].
    destruct (load_and_process_documents module_file (p :: ps)
                (mkState (vector_store st) d)) as [[st2 out2] [u|e]]; cbn [fst snd].
    + split; [reflexivity|]. split; [|reflexivity].
      rewrite handler_events_app, Hev, handler_events_handler. reflexivity.
    + split; [reflexivity|]. split; [|reflexivity].
      rewrite !handler_events_app, Hev, handler_events_handler.
      cbn. apply app_nil_r.
Qed.



Example upload_two_and_one_refused :
  let r := Main.upload_documents ListStoreMain.main_file ListStore.module_file
             [ListStoreMain.upload "fr.txt" "The capital of France is Paris.";
              ListStoreMain.refused "locked.txt";
              ListStoreMain.nameless;
              ListStoreMain.upload "mars.TXT" "Mars is a planet."]
             ListStoreMain.empty_service in
  r.2 = Main.Response
          (Main.mkUploadResponse
             "Successfully uploaded and initiated processing for 2 files."
             ["fr.txt"; "mars.TXT"]%string) ∧
  calls (Main.handler_events r.1.2)
  = [CFromDocuments
       [mkDocument "The capital of France is Paris."
          [("source"%string, "/srv/rag_app/uploads/fr.txt"%string)];
        mkDocument "Mars is a planet."
          [("source"%string, "/srv/rag_app/uploads/mars.TXT"%string)]];
     CMakedirs "/srv/rag_app/app/../vector_store";
     CSaveLocal ListStore.index_path].
Proof. split; vm_compute; reflexivity. Qed.

Section SameName.
Context {L : Library}.
Variable main_file : string.
Variable name : string.
Hypothesis name_not_empty : name ≠ ""%string.

(** Uploads that all carry the filename [name] and are all written. *)
Local Abbreviation all_named files :=
  (Forall (λ f : Main.UploadFile (Blob L),
             Main.filename f = Some name ∧ ∃ b, Main.write f = Saved b) files).

Lemma stored_named (f : Main.UploadFile (Blob L)) (b : Blob L) :
  Main.filename f = Some name → Main.write f = Saved b → Main.stored f = Some name.
Proof.
  intros Hname Hwrite. unfold Main.stored, Main.no_filename. rewrite Hname, Hwrite.
  destruct (String.eqb_spec name ""); [contradiction | reflexivity].
Qed.

Lemma stored_names_named (files : list (Main.UploadFile (Blob L))) :
  all_named files → Main.stored_names files = replicate (length files) name.
Proof.
  induction 1 as [|f rest [Hname [b Hwrite]] _ IH]; [reflexivity|].
  unfold Main.stored_names in *. cbn [omap list_omap length replicate].
  rewrite (stored_named f b Hname Hwrite), IH. reflexivity.
Qed.

Lemma for_files_last_write (files : list (Main.UploadFile (Blob L)))
    (lists : list string * list string) (st : state L)
    (f_last : Main.UploadFile (Blob L)) (b_last : Blob L) :
  all_named files →
  last files = Some f_last →
  Main.write f_last = Saved b_last →
  disk (Main.for_files main_file files lists st).1.1 !! Main.upload_path main_file name
  = Some b_last.
Proof.
  intros Hall. revert lists st.
  induction Hall as [|f rest [Hname [b Hwrite]] _ IH]; intros lists st Hlast Hb;
    [discriminate|].
  cbn [Main.for_files].
  destruct (save_file_run main_file f lists st) as (d1 & out1 & Hrun1 & _ & Hd1).
  rewrite Hrun1.
  pose proof (Hd1 b name Hwrite (stored_named f b Hname Hwrite)) as ->.
  destruct rest as [|f2 rest].
  - cbn [Main.for_files fst snd disk].
    injection Hlast as <-. rewrite Hwrite in Hb. injection Hb as <-.
    apply lookup_insert_eq.
  - rewrite last_cons_cons in Hlast.
    specialize (IH (match Main.stored f with
                    | Some n => (lists.1 ++ [Main.upload_path main_file n], lists.2 ++ [n])
                    | None => lists
                    end)
                  (mkState (vector_store st)
                     (<[Main.upload_path main_file name := b]> (disk st))) Hlast Hb).
    destruct (Main.for_files main_file (f2 :: rest) _ _) as [[st2 out2] lists2].
    exact IH.
Qed.

Lemma batch_chunks_replicate (d : gmap string (Blob L)) (k : nat) (p : string) :
  batch_chunks d (replicate k p) = concat (replicate k (file_chunks d p)).
Proof.
  induction k as [|k IH]; [reflexivity|].
  unfold batch_chunks in *. cbn [replicate fmap list_fmap concat].
  rewrite <- IH. reflexivity.
Qed.

End SameName.

(** X7.  Every recorded file is written before the handler reads any of
    them, so uploads that share a filename overwrite one another: when all
    the files of a request carry the same filename and are written, the path
    holds the contents of the last one, the handler is given that path once
    per file, and the chunks of the batch are those of the last contents
    repeated as many times as there are files. *)
Theorem same_name_uploads_index_last_contents (L : Library)
    (main_file module_file name : string) (files : list (Main.UploadFile (Blob L)))
    (f_last : Main.UploadFile (Blob L)) (b_last : Blob L) (st : state L) :
  name ≠ ""%string →
  Forall (λ f : Main.UploadFile (Blob L),
            Main.filename f = Some name ∧ ∃ b, Main.write f = Saved b) files →
  last files = Some f_last →
  Main.write f_last = Saved b_last →
  let p := Main.upload_path main_file name in
  let k := length files in
  let st1 := (Main.for_files main_file files ([], []) st).1.1 in
  let r := Main.upload_documents main_file module_file files st in
  disk st1 !! p = Some b_last ∧
  r.1.1 = (load_and_process_documents module_file (replicate k p) st1).1.1 ∧
  Main.handler_events r.1.2
  = (load_and_process_documents module_file (replicate k p) st1).1.2 ∧
  ∃ c : list Document,
    (for_file_paths [p] [] st1).2 = Ok c ∧
    (for_file_paths (replicate k p) [] st1).2 = Ok (concat (replicate k c)).
Proof.
  intros Hname Hall Hlast Hb p k st1 r.
  assert (Hdisk : disk st1 !! p = Some b_last)
    by exact (for_files_last_write main_file name Hname files ([], []) st f_last b_last
                Hall Hlast Hb).
  split; [exact Hdisk|].
  assert (Hne : Main.stored_names files ≠ []).
  { rewrite (stored_names_named name Hname files Hall).
    destruct files; [discriminate|]. discriminate. }
  destruct (upload_documents_run main_file module_file files st)
    as (d & out & Hloop & Hev & Hrun).
  subst r st1 k p. rewrite Hrun, Hloop.
  rewrite (stored_names_named name Hname files Hall) in *.
  rewrite fmap_replicate.
  destruct (replicate (length files) name) as [|n ns] eqn:Hrep; [congruence|].
  cbv zeta. cbn [fst snd].
  split; [reflexivity|].
  split; [rewrite handler_events_app, Hev, handler_events_handler; reflexivity|].
  exists (file_chunks d (Main.upload_path main_file name)).
  rewrite !for_file_paths_run. cbn [fst snd disk app].
  split.
  - unfold batch_chunks. cbn [fmap list_fmap concat]. rewrite app_nil_r. reflexivity.
  - rewrite batch_chunks_replicate. reflexivity.
Qed.

Lemma same_name_uploads_index_last_contents_witness :
  let files : list (Main.UploadFile (Blob ListStore.lib)) :=
    [ListStoreMain.upload "notes.txt" "first draft";
     ListStoreMain.upload "notes.txt" "second draft"] in
  let final := mkDocument "second draft"
                 [("source"%string, "/srv/rag_app/uploads/notes.txt"%string)] in
  let r := Main.upload_documents ListStoreMain.main_file ListStore.module_file files
             ListStoreMain.empty_service in
  last files = Some (ListStoreMain.upload "notes.txt" "second draft") ∧
  disk (Main.for_files ListStoreMain.main_file files ([], [])
          ListStoreMain.empty_service).1.1
    !! Main.upload_path ListStoreMain.main_file "notes.txt"
  = Some (ListStore.FileText "second draft") ∧
  vector_store r.1.1 = Some [final; final].
Proof.
  intros files final r.
  assert (Hname : "notes.txt"%string ≠ ""%string) by discriminate.
  assert (Hall : Forall (λ f : Main.UploadFile (Blob ListStore.lib),
                           Main.filename f = Some "notes.txt"%string ∧
                           ∃ b, Main.write f = Saved b) files).
  { repeat constructor; eexists; reflexivity. }
  assert (Hlast : last files = Some (ListStoreMain.upload "notes.txt" "second draft"))
    by reflexivity.
  pose proof (same_name_uploads_index_last_contents ListStore.lib
                ListStoreMain.main_file ListStore.module_file "notes.txt" files _ _
                ListStoreMain.empty_service Hname Hall Hlast eq_refl) as (Hdisk & _).
  split; [exact Hlast|]. split; [exact Hdisk|].
  vm_compute. reflexivity.
Defined.

Section ChatFacts.
Context {L : Library}.

Lemma get_answer_some_iff (query : string) (st : state L) (text : string) :
  (get_answer query st).2 = Ok (Some text) ↔
  ∃ vs response,
    vector_store st = Some vs ∧ qa_response vs query = Ok response ∧
    response !! "result"%string = Some (PyStr text) ∧ text ≠ ""%string.
Proof.
  destruct (get_answer_run query st) as [out Hrun]. rewrite Hrun. cbn [snd].
  destruct (vector_store st) as [vs|].
  - destruct (qa_response vs query) as [response|e] eqn:Hqa.
    + cbv zeta.
      destruct (response !! "result"%string) as [[|s]|] eqn:Hlook;
        cbn [default from_option id truthy].
      * split; [discriminate|]. intros (vs0 & r0 & [= <-] & Hr & Hres & _).
        rewrite Hqa in Hr. injection Hr as <-. congruence.
      * destruct (String.eqb_spec s "") as [-> | Hs]; cbn [negb py_str].
        -- split; [discriminate|]. intros (vs0 & r0 & [= <-] & Hr & Hres & Hne).
           rewrite Hqa in Hr. injection Hr as <-. congruence.
        -- split.
           ++ intros [= Htext]. subst text. exists vs, response.
              split; [reflexivity|]. split; [exact Hqa|]. split; [exact Hlook | exact Hs].
           ++ intros (vs0 & r0 & [= <-] & Hr & Hres & _).
              rewrite Hqa in Hr. injection Hr as <-. congruence.
      * split; [discriminate|]. intros (vs0 & r0 & [= <-] & Hr & Hres & _).
        rewrite Hqa in Hr. injection Hr as <-. congruence.
    + split; [discriminate|]. intros (vs0 & r0 & [= <-] & Hr & _). congruence.
  - split; [discriminate|]. intros (vs0 & r0 & Hvs & _). discriminate.
Qed.

Lemma get_answer_none_iff (query : string) (st : state L) :
  (get_answer query st).2 = Ok None ↔
  vector_store st = None ∨
  ∃ vs, vector_store st = Some vs ∧
        ((∃ e, qa_response vs query = Raise e) ∨
         (∃ response, qa_response vs query = Ok response ∧ empty_result response)).
Proof.
  destruct (get_answer_run query st) as [out Hrun]. rewrite Hrun. cbn [snd].
  destruct (vector_store st) as [vs|].
  - destruct (qa_response vs query) as [response|e] eqn:Hqa.
    + cbv zeta. pose proof (truthy_false_iff response) as Hempty.
      destruct (truthy (default PyNone (response !! "result"%string))).
      * split; [discriminate|].
        intros [Hnone | (vs0 & [= <-] & [[e He] | (r0 & Hr & Hres)])];
          [discriminate | congruence |].
        rewrite Hqa in Hr. injection Hr as <-. apply Hempty in Hres. discriminate.
      * split; [|reflexivity]. intros _. right. exists vs. split; [reflexivity|].
        right. exists response. split; [exact Hqa|]. apply Hempty. reflexivity.
    + split; [|reflexivity]. intros _. right. exists vs. split; [reflexivity|].
      left. eauto.
  - split; auto.
Qed.

Lemma chat_with_rag_run (query : string) (st : state L) :
  ∃ out,
    get_answer query st = (st, out, (get_answer query st).2) ∧
    Main.chat_with_rag query st
    = if Main.empty_query query
      then (st, [], Main.HTTPException 400 "Query cannot be empty.")
      else
        match (get_answer query st).2 with
        | Ok (Some answer) =>
            (st, Main.Handler <$> out, Main.Response (Main.mkQueryResponse answer))
        | _ =>
            (st, Main.Handler <$> out,
             Main.HTTPException 404
               "Could not retrieve an answer. The document store might not be ready or relevant information not found.")
        end.
Proof.
  destruct (get_answer_run query st) as [out Hrun].
  exists out. unfold Main.chat_with_rag.
  destruct (get_answer query st) as [[st1 out1] res] eqn:Hg.
  injection Hrun as -> -> Hres. cbn [snd].
  split; [reflexivity|].
  destruct (Main.empty_query query); [reflexivity|].
  destruct res as [[answer|]|e]; [reflexivity | reflexivity | discriminate].
Qed.

End ChatFacts.

(** X8.  [chat_with_rag] never changes the handler or the file system and
    never takes its 500 branch.  An empty or blank query is answered 400
    before the handler is called.  Any other query is answered 200 with the
    text exactly when the handler has an index, the chain calls complete and
    the response holds a non-empty string; in every other case (no index yet,
    a failing provider, an empty result) the answer is the same 404. *)
Theorem chat_with_rag_outcome (L : Library) (query : string) (st : state L) :
  let r := Main.chat_with_rag query st in
  let not_found :=
    Main.HTTPException 404
      "Could not retrieve an answer. The document store might not be ready or relevant information not found." in
  r.1.1 = st ∧
  Main.status_of r.2 ≠ 500%nat ∧
  (Main.empty_query query = true →
   r.2 = Main.HTTPException 400 "Query cannot be empty." ∧ r.1.2 = []) ∧
  (Main.empty_query query = false →
   Main.handler_events r.1.2 = (get_answer query st).1.2 ∧
   (∀ text : string,
      r.2 = Main.Response (Main.mkQueryResponse text) ↔
      ∃ vs response,
        vector_store st = Some vs ∧ qa_response vs query = Ok response ∧
        response !! "result"%string = Some (PyStr text) ∧ text ≠ ""%string) ∧
   (r.2 = not_found ↔
    vector_store st = None ∨
    ∃ vs, vector_store st = Some vs ∧
          ((∃ e, qa_response vs query = Raise e) ∨
           (∃ response, qa_response vs query = Ok response ∧ empty_result response))) ∧
   (r.2 = not_found ∨ ∃ text, r.2 = Main.Response (Main.mkQueryResponse text))).
Proof.
  intros r not_found. subst r.
  destruct (chat_with_rag_run query st) as (out & Hget & Hrun). rewrite Hrun.
  pose proof (get_answer_none_iff query st) as Hnone.
  pose proof (get_answer_some_iff query st) as Hsome.
  destruct (Main.empty_query query).
  - cbn [fst snd Main.status_of].
    split; [reflexivity|]. split; [discriminate|]. split; [auto | discriminate].
  - assert (Hout : (get_answer query st).1.2 = out) by (rewrite Hget; reflexivity).
    assert (Hok : ∃ a, (get_answer query st).2 = Ok a).
    { destruct (get_answer_run query st) as [out' Hrun']. rewrite Hrun'. eauto. }
    destruct Hok as [a Hok].
    destruct ((get_answer query st).2) as [[answer|]|e] eqn:Hres; [| |discriminate];
      cbn [fst snd Main.status_of];
      (split; [reflexivity|]); (split; [discriminate|]); (split; [discriminate|]);
      intros _; (split; [rewrite handler_events_handler; symmetry; exact Hout|]).
    + split; [|split].
      * intros text. rewrite <- Hsome. split; intros [= ->]; reflexivity.
      * rewrite <- Hnone. split; discriminate.
      * right. eauto.
    + split; [|split].
      * intros text. rewrite <- Hsome. split; discriminate.
      * rewrite <- Hnone. split; reflexivity.
      * left. reflexivity.
Qed.

Example chat_before_any_upload :
  (Main.chat_with_rag "What is the capital of France?" ListStoreMain.empty_service).2
  = Main.HTTPException 404
      "Could not retrieve an answer. The document store might not be ready or relevant information not found."
  ∧ (Main.chat_with_rag "  " ListStore.serving).2
    = Main.HTTPException 400 "Query cannot be empty."
  ∧ (Main.chat_with_rag "The capital" ListStore.serving).2
    = Main.Response (Main.mkQueryResponse "The capital of France is Paris.").
Proof. repeat split; vm_compute; reflexivity. Qed.

(** ** Blank queries *)

Module SpaceFacts.
Import PyStr PySpace.

Lemma space2_high (c1 c2 : ascii) :
  space2 c1 c2 = true → (128 ≤ byte c1)%nat ∧ (128 ≤ byte c2)%nat.
Proof.
  unfold space2.
  rewrite !andb_true_iff, !orb_true_iff, !Nat.eqb_eq. lia.
Qed.

Lemma space3_high (c1 c2 c3 : ascii) :
  space3 c1 c2 c3 = true →
  (128 ≤ byte c1)%nat ∧ (128 ≤ byte c2)%nat ∧ (128 ≤ byte c3)%nat.
Proof.
  unfold space3. cbv zeta.
  rewrite !orb_true_iff, !andb_true_iff, !orb_true_iff, !andb_true_iff,
    !Nat.eqb_eq, !Nat.leb_le. lia.
Qed.

Lemma lstrip_all_spaces (p : chars) :
  Forall (λ c, space1 c = true) p → lstrip p = [].
Proof.
  induction 1 as [|c p Hc _ IH]; [reflexivity|]. cbn [lstrip]. rewrite Hc. exact IH.
Qed.

(** Stripping on the left removes no ASCII byte that is not a space: the
    bytes of the longer encodings are all above 127. *)
Lemma lstrip_keeps (c : ascii) (n : nat) (p : chars) :
  (byte c < 128)%nat → space1 c = false →
  (length p ≤ n)%nat → c ∈ p → c ∈ lstrip p.
Proof.
  intros Hlow Hns. revert p.
  induction n as [|n IH]; intros p Hlen Hin.
  - destruct p; [inversion Hin | simpl in Hlen; lia].
  - destruct p as [|c1 p1]; [inversion Hin|]. cbn [lstrip].
    cbn [length] in Hlen.
    destruct (space1 c1) eqn:H1.
    + apply IH; [lia|]. apply elem_of_cons in Hin as [-> | Hin]; [congruence | exact Hin].
    + destruct p1 as [|c2 p2]; [exact Hin|].
      cbn [length] in Hlen.
      destruct (space2 c1 c2) eqn:H2.
      * apply space2_high in H2 as [Hh1 Hh2]. apply IH; [lia|].
        apply elem_of_cons in Hin as [-> | Hin]; [lia|].
        apply elem_of_cons in Hin as [-> | Hin]; [lia | exact Hin].
      * destruct p2 as [|c3 p3]; [exact Hin|].
        cbn [length] in Hlen.
        destruct (space3 c1 c2 c3) eqn:H3; [|exact Hin].
        apply space3_high in H3 as (Hh1 & Hh2 & Hh3). apply IH; [lia|].
        apply elem_of_cons in Hin as [-> | Hin]; [lia|].
        apply elem_of_cons in Hin as [-> | Hin]; [lia|].
        apply elem_of_cons in Hin as [-> | Hin]; [lia | exact Hin].
Qed.

Lemma lstrip_reversed_keeps (c : ascii) (n : nat) (p : chars) :
  (byte c < 128)%nat → space1 c = false →
  (length p ≤ n)%nat → c ∈ p → c ∈ lstrip_reversed p.
Proof.
  intros Hlow Hns. revert p.
  induction n as [|n IH]; intros p Hlen Hin.
  - destruct p; [inversion Hin | simpl in Hlen; lia].
  - destruct p as [|c1 p1]; [inversion Hin|]. cbn [lstrip_reversed].
    cbn [length] in Hlen.
    destruct (space1 c1) eqn:H1.
    + apply IH; [lia|]. apply elem_of_cons in Hin as [-> | Hin]; [congruence | exact Hin].
    + destruct p1 as [|c2 p2]; [exact Hin|].
      cbn [length] in Hlen.
      destruct (space2 c2 c1) eqn:H2.
      * apply space2_high in H2 as [Hh1 Hh2]. apply IH; [lia|].
        apply elem_of_cons in Hin as [-> | Hin]; [lia|].
        apply elem_of_cons in Hin as [-> | Hin]; [lia | exact Hin].
      * destruct p2 as [|c3 p3]; [exact Hin|].
        cbn [length] in Hlen.
        destruct (space3 c3 c2 c1) eqn:H3; [|exact Hin].
        apply space3_high in H3 as (Hh1 & Hh2 & Hh3). apply IH; [lia|].
        apply elem_of_cons in Hin as [-> | Hin]; [lia|].
        apply elem_of_cons in Hin as [-> | Hin]; [lia|].
        apply elem_of_cons in Hin as [-> | Hin]; [lia | exact Hin].
Qed.

Lemma elem_of_rev (c : ascii) (l : chars) : c ∈ l → c ∈ rev l.
Proof.
  intros Hin. apply list_elem_of_In. apply -> List.in_rev.
  apply list_elem_of_In. exact Hin.
Qed.

Lemma strip_keeps (c : ascii) (p : chars) :
  (byte c < 128)%nat → space1 c = false →
  c ∈ p → c ∈ rstrip_space (lstrip p).
Proof.
  intros Hlow Hns Hin. unfold rstrip_space.
  apply elem_of_rev.
  apply (lstrip_reversed_keeps c (length (rev (lstrip p)))); [exact Hlow | exact Hns | lia |].
  apply elem_of_rev.
  apply (lstrip_keeps c (length p)); [exact Hlow | exact Hns | lia | exact Hin].
Qed.

Lemma to_string_nil_inv (p : chars) : to_string p = ""%string → p = [].
Proof. destruct p; [reflexivity | discriminate]. Qed.

End SpaceFacts.

(** X9.  What [chat_with_rag] rejects as an empty query: a query made of
    ASCII whitespace only (tabs, line feeds, vertical tabs, form feeds,
    carriage returns, the separators U+001C-001F and spaces), the empty
    string included, is rejected; a query holding at least one ASCII
    character that is no whitespace is never rejected, whatever surrounds
    it. *)
Theorem empty_query_is_blank_query :
  (∀ query : string,
     Forall (λ c, PySpace.space1 c = true) (PyStr.of_string query) →
     Main.empty_query query = true) ∧
  (∀ (query : string) (c : ascii),
     c ∈ PyStr.of_string query →
     (PySpace.byte c < 128)%nat → PySpace.space1 c = false →
     Main.empty_query query = false).
Proof.
  split.
  - intros query Hall. unfold Main.empty_query, PySpace.strip.
    rewrite (SpaceFacts.lstrip_all_spaces _ Hall).
    cbn. apply orb_true_r.
  - intros query c Hin Hlow Hns. unfold Main.empty_query, PySpace.strip.
    apply orb_false_iff. split.
    + destruct query; [inversion Hin | reflexivity].
    + apply String.eqb_neq. intros Hempty.
      apply SpaceFacts.to_string_nil_inv in Hempty.
      pose proof (SpaceFacts.strip_keeps c (PyStr.of_string query) Hlow Hns Hin)
        as Hkept.
      rewrite Hempty in Hkept. inversion Hkept.
Qed.

Example blank_queries :
  Main.empty_query "" = true ∧
  Main.empty_query (String (ascii_of_nat 9) (String (ascii_of_nat 10) " ")) = true ∧
  Main.empty_query (String (ascii_of_nat 194) (String (ascii_of_nat 160) " ")) = true ∧
  Main.empty_query " a " = false.
Proof. repeat split; vm_compute; reflexivity. Qed.

(** ** The service over a sequence of requests *)

Section ServiceFacts.
Context {L : Library}.
Variable main_file : string.
Variable module_file : string.

Lemma serve_inv (rq : Main.request) (st : state L) :
  is_Some (vector_store st) →
  is_Some (vector_store (Main.serve main_file module_file rq st).1.1).
Proof.
  destruct rq as [files|query]; cbn [Main.serve].
  - destruct (upload_documents_run main_file module_file files st)
      as (d & out & _ & _ & Hrun).
    rewrite Hrun.
    destruct (Main.stored_names files) as [|name names]; cbn [fst snd]; [auto|].
    cbv zeta. cbn [fst snd]. intros Hsome.
    exact (proj2 (batch_inv module_file _ (mkState (vector_store st) d)) Hsome).
  - destruct (chat_with_rag_run query st) as (out & _ & Hrun). rewrite Hrun.
    destruct (Main.empty_query query); cbn [fst snd]; [auto|].
    destruct ((get_answer query st).2) as [[answer|]|e]; cbn [fst snd]; auto.
Qed.

End ServiceFacts.

(** X10.  Whatever requests the two endpoints receive, one after the other
    on the same handler and file system, and whatever the libraries do, each
    request gets one status code and the handler never loses its index: once
    it holds one it holds one after every later request, uploads whose batch
    fails included. *)
Theorem service_keeps_its_index (L : Library) (main_file module_file : string)
    (rqs : list Main.request) (st : state L) :
  let r := Main.serve_all main_file module_file rqs st in
  length r.2 = length rqs ∧
  (is_Some (vector_store st) → is_Some (vector_store r.1.1)).
Proof.
  revert st. induction rqs as [|rq rest IH]; intros st; cbn [Main.serve_all].
  - cbn. auto.
  - pose proof (serve_inv main_file module_file rq st) as Hkeep.
    destruct (Main.serve main_file module_file rq st) as [[st1 out1] code].
    cbn [fst snd] in Hkeep.
    specialize (IH st1). cbv zeta in IH.
    destruct (Main.serve_all main_file module_file rest st1) as [[st2 out2] codes].
    cbn [fst snd length] in *.
    destruct IH as (Hlen & Hkeep2).
    split; [rewrite Hlen; reflexivity | auto].
Qed.

Example service_session :
  (Main.serve_all ListStoreMain.main_file ListStore.module_file
     [Main.Chat "The capital";
      Main.Upload [ListStoreMain.refused "fr.txt"];
      Main.Upload [ListStoreMain.upload "fr.txt" "The capital of France is Paris."];
      Main.Chat "The capital";
      Main.Chat "timeout";
      Main.Chat " "]
     ListStoreMain.empty_service).2
  = [404; 400; 200; 200; 404; 400]%nat.
Proof. vm_compute. reflexivity. Qed.

(** * Path arithmetic *)

Module PathFacts.
Import PyStr OsPath.

Lemma to_string_app (a b : chars) : to_string (a ++ b) = (to_string a +:+ to_string b)%string.
Proof.
  unfold to_string. induction a as [|x a IH]; [reflexivity|].
  simpl. rewrite IH. reflexivity.
Qed.

Lemma join_one (a b : string) :
  of_string (join a [b]) = join_step (of_string a) (of_string b).
Proof. unfold join. cbn [fmap list_fmap foldl]. apply CaseFold.of_to_string. Qed.

Lemma join_two (a b c : string) :
  of_string (join a [b; c])
  = join_step (join_step (of_string a) (of_string b)) (of_string c).
Proof. unfold join. cbn [fmap list_fmap foldl]. apply CaseFold.of_to_string. Qed.

(** Joining a relative component appends it, with a separator unless the
    path is empty or already ends with one. *)
Lemma join_step_relative (path b : chars) :
  startswith sep b = false →
  ∃ x, join_step path b = x ++ b ∧ (x = path ∨ x = path ++ [sep]).
Proof.
  intros Hrel. unfold join_step. rewrite Hrel.
  destruct (chars_eqb path [] || endswith sep path).
  - exists path. auto.
  - exists (path ++ [sep]). rewrite <- app_assoc. auto.
Qed.

(** After a path whose last character is not the separator. *)
Lemma join_step_after (path b : chars) (x : ascii) :
  last path = Some x → x ≠ sep →
  join_step path b = if startswith sep b then b else path ++ sep :: b.
Proof.
  intros Hlast Hx. unfold join_step.
  destruct (startswith sep b); [reflexivity|].
  unfold endswith. rewrite Hlast.
  destruct (Ascii.eqb_spec x sep) as [-> | _]; [contradiction|].
  unfold chars_eqb. rewrite bool_decide_eq_false_2; [reflexivity|].
  intros ->. discriminate.
Qed.

Lemma upload_dir_last (main_file : string) :
  last (of_string (Main.UPLOAD_DIR_MAIN main_file)) = Some "s"%char.
Proof.
  unfold Main.UPLOAD_DIR_MAIN. rewrite join_one.
  destruct (join_step_relative (of_string (Main.RAG_APP_ROOT_DIR main_file))
              (of_string UPLOAD_DIRECTORY) eq_refl) as (x & -> & _).
  rewrite last_app. reflexivity.
Qed.

End PathFacts.

(** X11.  Where an upload is written: under the upload directory when its
    filename is relative, and at the filename itself when the filename
    starts with a slash, since [os.path.join] then drops the directory.  That
    path is also the one handed to the handler. *)
Theorem upload_is_written_at_joined_path (L : Library) (main_file : string)
    (file : Main.UploadFile (Blob L)) (name : string) (b : Blob L)
    (lists : list string * list string) (st : state L) :
  Main.filename file = Some name →
  name ≠ ""%string →
  Main.write file = Saved b →
  let file_path :=
    if PyStr.startswith OsPath.sep (PyStr.of_string name) then name
    else (Main.UPLOAD_DIR_MAIN main_file +:+ "/" +:+ name)%string in
  Main.save_file main_file file lists st
  = (mkState (vector_store st) (<[file_path := b]> (disk st)), [],
     (lists.1 ++ [file_path], lists.2 ++ [name])).
Proof.
  intros Hname Hne Hwrite file_path.
  assert (Hpath : OsPath.join (Main.UPLOAD_DIR_MAIN main_file) [name] = file_path).
  { rewrite <- (CaseFold.to_of_string (OsPath.join _ _)), PathFacts.join_one.
    rewrite (PathFacts.join_step_after _ _ "s"%char (PathFacts.upload_dir_last main_file))
      by discriminate.
    subst file_path.
    destruct (PyStr.startswith OsPath.sep (PyStr.of_string name)).
    - apply CaseFold.to_of_string.
    - change (?a ++ OsPath.sep :: ?b) with (a ++ [OsPath.sep] ++ b).
      rewrite !PathFacts.to_string_app, !CaseFold.to_of_string. reflexivity. }
  unfold Main.save_file, Main.no_filename. rewrite Hname, Hwrite.
  destruct (String.eqb_spec name ""); [contradiction|].
  cbn [default from_option id]. cbv zeta. rewrite Hpath. reflexivity.
Qed.

Lemma upload_is_written_at_joined_path_witness :
  let file : Main.UploadFile (Blob ListStore.lib) :=
    ListStoreMain.upload "/etc/cron.d/job.txt" "outside" in
  Main.filename file = Some "/etc/cron.d/job.txt"%string ∧
  "/etc/cron.d/job.txt"%string ≠ ""%string ∧
  Main.write file = Saved (ListStore.FileText "outside") ∧
  (Main.save_file ListStoreMain.main_file file ([], []) ListStoreMain.empty_service).2
  = (["/etc/cron.d/job.txt"%string], ["/etc/cron.d/job.txt"%string]).
Proof.
  intros file.
  assert (Hne : "/etc/cron.d/job.txt"%string ≠ ""%string) by discriminate.
  split; [reflexivity|]. split; [exact Hne|]. split; [reflexivity|].
  rewrite (upload_is_written_at_joined_path ListStore.lib ListStoreMain.main_file file
             _ _ ([], []) ListStoreMain.empty_service eq_refl Hne eq_refl).
  reflexivity.
Defined.

Example upload_paths :
  Main.upload_path ListStoreMain.main_file "fr.txt" = "/srv/rag_app/uploads/fr.txt"%string ∧
  Main.upload_path ListStoreMain.main_file "../app/main.py"
  = "/srv/rag_app/uploads/../app/main.py"%string ∧
  Main.upload_path ListStoreMain.main_file "/etc/passwd" = "/etc/passwd"%string.
Proof. repeat split; vm_compute; reflexivity. Qed.

(** ** [rfind] and [splitext] *)

Module SplitFacts.
Import PyStr OsPath.

Lemma rfind_from_app (c : ascii) (p q : chars) (i found : Z) :
  rfind_from c (p ++ q) i found
  = rfind_from c q (i + Z.of_nat (length p)) (rfind_from c p i found).
Proof.
  revert i found. induction p as [|x p IH]; intros i found.
  - cbn [app length rfind_from]. f_equal. lia.
  - cbn [app length rfind_from]. rewrite IH. f_equal. lia.
Qed.

Lemma rfind_from_absent (c : ascii) (q : chars) (i found : Z) :
  c ∉ q → rfind_from c q i found = found.
Proof.
  revert i found. induction q as [|x q IH]; intros i found Hnot; [reflexivity|].
  cbn [rfind_from]. apply not_elem_of_cons in Hnot as [Hx Hq].
  destruct (Ascii.eqb_spec x c); [congruence|]. apply IH. exact Hq.
Qed.

(** The index [rfind] returns is that of the last occurrence. *)
Lemma rfind_last (c : ascii) (p q : chars) :
  c ∉ q → rfind c (p ++ c :: q) = Z.of_nat (length p).
Proof.
  intros Hnot. unfold rfind. rewrite rfind_from_app. cbn [rfind_from].
  rewrite Ascii.eqb_refl. rewrite rfind_from_absent by exact Hnot. lia.
Qed.

Lemma rfind_absent (c : ascii) (p : chars) : c ∉ p → rfind c p = -1.
Proof. intros Hnot. unfold rfind. apply rfind_from_absent. exact Hnot. Qed.

Lemma last_occurrence (c : ascii) (p : chars) :
  (c ∉ p) ∨ (∃ a b, p = a ++ c :: b ∧ c ∉ b).
Proof.
  induction p as [|x p IH]; [left; apply not_elem_of_nil|].
  destruct IH as [Hnot | (a & b & -> & Hb)].
  - destruct (decide (x = c)) as [-> | Hx].
    + right. exists [], p. auto.
    + left. apply not_elem_of_cons. auto.
  - right. exists (x :: a), b. auto.
Qed.

Lemma rfind_cases (c : ascii) (p : chars) :
  ((c ∉ p) ∧ rfind c p = -1) ∨
  (∃ a b, p = a ++ c :: b ∧ (c ∉ b) ∧ rfind c p = Z.of_nat (length a)).
Proof.
  destruct (last_occurrence c p) as [Hnot | (a & b & -> & Hb)].
  - left. split; [exact Hnot | apply rfind_absent; exact Hnot].
  - right. exists a, b. split; [reflexivity|]. split; [exact Hb|].
    apply rfind_last. exact Hb.
Qed.

(** Whatever the loop returns is the split at [dotIndex]. *)
Lemma _splitext_loop_some (p : chars) (dotIndex filenameIndex : Z) (n : nat)
    (r : chars * chars) :
  _splitext_loop p dotIndex filenameIndex n = Some r →
  r = (slice_to dotIndex p, slice_from dotIndex p).
Proof.
  revert filenameIndex. induction n as [|n IH]; intros filenameIndex; cbn [_splitext_loop].
  - discriminate.
  - destruct (negb (chars_eqb (slice1 filenameIndex p) [extsep])); [congruence | apply IH].
Qed.

Lemma _splitext_cases (p : chars) :
  _splitext p = (p, []) ∨
  (rfind sep p < rfind extsep p ∧
   _splitext p = (slice_to (rfind extsep p) p, slice_from (rfind extsep p) p)).
Proof.
  unfold _splitext.
  destruct (Z.ltb_spec (rfind sep p) (rfind extsep p)) as [Hlt|]; [|auto].
  destruct (_splitext_loop p _ _ _) as [r|] eqn:Hloop; [|auto].
  right. split; [exact Hlt|]. exact (_splitext_loop_some _ _ _ _ _ Hloop).
Qed.

(** [root + ext == p] *)
Lemma _splitext_join (p : chars) : (_splitext p).1 ++ (_splitext p).2 = p.
Proof.
  destruct (_splitext_cases p) as [-> | [_ ->]]; cbn [fst snd].
  - apply app_nil_r.
  - apply take_drop.
Qed.

(** The extension is empty, or a dot followed by characters among which
    there is neither a dot nor a separator. *)
Lemma _splitext_ext (p : chars) :
  (_splitext p).2 = [] ∨
  (∃ e, (_splitext p).2 = extsep :: e ∧ (extsep ∉ e) ∧ (sep ∉ e)).
Proof.
  destruct (_splitext_cases p) as [-> | [Hlt ->]]; cbn [snd]; [auto|].
  right.
  destruct (rfind_cases extsep p) as [[_ Hdot] | (a & b & Hp & Hb & Hdot)].
  { destruct (rfind_cases sep p) as [[_ Hsep] | (a' & b' & _ & _ & Hsep)]; lia. }
  exists b. rewrite Hdot. unfold slice_from. rewrite Nat2Z.id.
  rewrite Hp at 1. rewrite drop_app_length.
  split; [reflexivity|]. split; [exact Hb|].
  destruct (rfind_cases sep p) as [[Hnot _] | (a' & b' & Hp' & Hb' & Hsep)].
  - intros Hin. apply Hnot. rewrite Hp. apply elem_of_app. right.
    apply elem_of_cons. auto.
  - intros Hin. apply Hb'.
    assert (Hlen : (length a' < length a)%nat) by lia.
    assert (Hdrop : b = drop (length a - length a') b').
    { assert (H1 : drop (S (length a)) p = b).
      { rewrite Hp at 1. change (a ++ extsep :: b) with (a ++ [extsep] ++ b).
        rewrite app_assoc. apply drop_app_length'. rewrite length_app. cbn. lia. }
      assert (H2 : drop (S (length a')) p = b').
      { rewrite Hp' at 1. change (a' ++ sep :: b') with (a' ++ [sep] ++ b').
        rewrite app_assoc. apply drop_app_length'. rewrite length_app. cbn. lia. }
      rewrite <- H1, <- H2, drop_drop. f_equal. lia. }
    rewrite Hdrop in Hin. exact (subseteq_drop _ _ _ Hin).
Qed.

End SplitFacts.

(** X12.  The extension [splitext] returns is a tail of the path: root
    and extension put together give the path back.  It is either empty or a
    dot followed by characters none of which is a dot or a slash.  So a
    loader is selected only for a path that ends with a dot followed by
    [pdf], [txt] or [docx] in any letter case, with neither a dot nor a slash
    after that dot. *)
Theorem loader_only_for_dotted_suffix (p : string) :
  ((OsPath.splitext p).1 +:+ (OsPath.splitext p).2)%string = p ∧
  ((OsPath.splitext p).2 = ""%string ∨
   ∃ e : PyStr.chars,
     (OsPath.splitext p).2 = PyStr.to_string (OsPath.extsep :: e) ∧
     (OsPath.extsep ∉ e) ∧ (OsPath.sep ∉ e)) ∧
  ∀ ld : loader,
    select_loader (file_ext_of p) = Some ld →
    ∃ (stem : string) (e : PyStr.chars),
      p = (stem +:+ PyStr.to_string (OsPath.extsep :: e))%string ∧
      (OsPath.extsep ∉ e) ∧ (OsPath.sep ∉ e) ∧
      loader_for (PyStr.to_string (OsPath.extsep :: PyStr.lower_chars e)) ld.
Proof.
  assert (Hjoin : ((OsPath.splitext p).1 +:+ (OsPath.splitext p).2)%string = p).
  { unfold OsPath.splitext. cbn [fst snd].
    rewrite <- PathFacts.to_string_app, SplitFacts._splitext_join.
    apply CaseFold.to_of_string. }
  split; [exact Hjoin|]. split.
  - unfold OsPath.splitext. cbn [fst snd].
    destruct (SplitFacts._splitext_ext (PyStr.of_string p)) as [-> | (e & -> & Hdot & Hsep)].
    + left. reflexivity.
    + right. exists e. auto.
  - intros ld Hld. apply loader_for_select in Hld.
    revert Hjoin Hld. unfold file_ext_of, OsPath.splitext, PyStr.lower. cbn [fst snd].
    rewrite CaseFold.of_to_string.
    destruct (SplitFacts._splitext_ext (PyStr.of_string p)) as [-> | (e & -> & Hdot & Hsep)].
    + intros _ Hld. inversion Hld.
    + intros Hjoin Hld.
      exists (PyStr.to_string (OsPath._splitext (PyStr.of_string p)).1), e.
      split; [symmetry; exact Hjoin|]. split; [exact Hdot|]. split; [exact Hsep|].
      exact Hld.
Qed.

Example loader_only_for_dotted_suffix_runs :
  OsPath.splitext "/srv/up.loads/report.v2.PDF"
  = ("/srv/up.loads/report.v2"%string, ".PDF"%string) ∧
  OsPath.splitext "/srv/up.loads/README" = ("/srv/up.loads/README"%string, ""%string) ∧
  select_loader (file_ext_of "/srv/up.loads/report.v2.PDF") = Some PyPDFLoader ∧
  select_loader (file_ext_of "/srv/up.loads/README") = None.
Proof. repeat split; vm_compute; reflexivity. Qed.

Module NameFacts.
Import PyStr OsPath.

Lemma slice1_app (pre s : chars) (j : nat) :
  slice1 (Z.of_nat (length pre) + Z.of_nat j) (pre ++ s) = take 1 (drop j s).
Proof.
  unfold slice1. rewrite <- Nat2Z.inj_add, Nat2Z.id, drop_app_add. reflexivity.
Qed.

Lemma _splitext_loop_none (p : chars) (dotIndex filenameIndex : Z) (n : nat) :
  (∀ j, (j < n)%nat → slice1 (filenameIndex + Z.of_nat j) p = [extsep]) →
  _splitext_loop p dotIndex filenameIndex n = None.
Proof.
  revert filenameIndex. induction n as [|n IH]; intros filenameIndex Hdots;
    cbn [_splitext_loop]; [reflexivity|].
  pose proof (Hdots 0%nat ltac:(lia)) as H0. rewrite Z.add_0_r in H0. rewrite H0.
  unfold chars_eqb. rewrite bool_decide_eq_true_2 by reflexivity. cbn [negb].
  apply IH. intros j Hj.
  replace (filenameIndex + 1 + Z.of_nat j) with (filenameIndex + Z.of_nat (S j)) by lia.
  apply Hdots. lia.
Qed.

Lemma _splitext_loop_found (p : chars) (dotIndex filenameIndex : Z) (n j : nat) :
  (j < n)%nat →
  slice1 (filenameIndex + Z.of_nat j) p ≠ [extsep] →
  _splitext_loop p dotIndex filenameIndex n
  = Some (slice_to dotIndex p, slice_from dotIndex p).
Proof.
  revert filenameIndex j. induction n as [|n IH]; intros filenameIndex j Hj Hnot; [lia|].
  cbn [_splitext_loop]. unfold chars_eqb.
  destruct (decide (slice1 filenameIndex p = [extsep])) as [Hdot | Hdot].
  - rewrite bool_decide_eq_true_2 by exact Hdot. cbn [negb].
    destruct j as [|j]; [rewrite Z.add_0_r in Hnot; contradiction|].
    apply (IH _ j); [lia|].
    replace (filenameIndex + 1 + Z.of_nat j) with (filenameIndex + Z.of_nat (S j)) by lia.
    exact Hnot.
  - rewrite bool_decide_eq_false_2 by exact Hdot. reflexivity.
Qed.

(** The last separator of a path whose directory part is [pre]. *)
Lemma rfind_sep_after_dir (pre tail : chars) :
  pre = [] ∨ last pre = Some sep →
  sep ∉ tail →
  rfind sep (pre ++ tail) = Z.of_nat (length pre) - 1.
Proof.
  intros [-> | Hlast] Htail.
  - cbn [app length]. apply SplitFacts.rfind_absent. exact Htail.
  - apply last_Some in Hlast as [pre' ->].
    rewrite <- app_assoc. cbn [app].
    rewrite SplitFacts.rfind_last by exact Htail.
    rewrite length_app. cbn [length]. lia.
Qed.

Lemma rfind_dot_in_dir (pre tail : chars) :
  pre = [] ∨ last pre = Some sep →
  extsep ∉ tail →
  rfind extsep (pre ++ tail) ≤ Z.of_nat (length pre) - 1.
Proof.
  intros Hpre Htail.
  destruct (SplitFacts.last_occurrence extsep pre) as [Hnot | (a & b & -> & Hb)].
  - rewrite SplitFacts.rfind_absent; [lia|].
    intros Hin. apply elem_of_app in Hin as [Hin|Hin]; auto.
  - rewrite <- app_assoc. cbn [app].
    rewrite SplitFacts.rfind_last.
    + rewrite length_app. cbn [length]. lia.
    + intros Hin. apply elem_of_app in Hin as [Hin|Hin]; auto.
Qed.

(** A final component made of dots followed by dot-free text has no
    extension. *)
Lemma _splitext_dotfile (pre rest : chars) (k : nat) :
  pre = [] ∨ last pre = Some sep →
  extsep ∉ rest → sep ∉ rest →
  _splitext (pre ++ replicate k extsep ++ rest) = (pre ++ replicate k extsep ++ rest, []).
Proof.
  intros Hpre Hdot Hsep. unfold _splitext.
  assert (Hs : rfind sep (pre ++ replicate k extsep ++ rest) = Z.of_nat (length pre) - 1).
  { apply rfind_sep_after_dir; [exact Hpre|].
    intros Hin. apply elem_of_app in Hin as [Hin|Hin]; [|auto].
    apply elem_of_replicate_inv in Hin. discriminate. }
  rewrite Hs.
  destruct k as [|k].
  - cbn [replicate app].
    pose proof (rfind_dot_in_dir pre rest Hpre Hdot) as Hle.
    destruct (Z.ltb_spec (Z.of_nat (length pre) - 1) (rfind extsep (pre ++ rest)));
      [lia | reflexivity].
  - assert (Hd : rfind extsep (pre ++ replicate (S k) extsep ++ rest)
                 = Z.of_nat (length pre) + Z.of_nat k).
    { replace (pre ++ replicate (S k) extsep ++ rest)
        with ((pre ++ replicate k extsep) ++ extsep :: rest).
      - rewrite SplitFacts.rfind_last by exact Hdot.
        rewrite length_app, length_replicate. lia.
      - rewrite <- app_assoc. f_equal.
        change (extsep :: rest) with ([extsep] ++ rest). rewrite app_assoc. f_equal.
        clear. induction k as [|k IH]; [reflexivity|]. cbn [replicate app] in *.
        f_equal. exact IH. }
    rewrite Hd.
    destruct (Z.ltb_spec (Z.of_nat (length pre) - 1) (Z.of_nat (length pre) + Z.of_nat k));
      [|reflexivity].
    rewrite _splitext_loop_none; [reflexivity|].
    intros j Hj.
    replace (Z.of_nat (length pre) - 1 + 1 + Z.of_nat j)
      with (Z.of_nat (length pre) + Z.of_nat j) by lia.
    rewrite slice1_app.
    assert (Hjk : (j < k)%nat) by lia. clear -Hjk.
    revert j Hjk. induction k as [|k IH]; intros j Hjk; [lia|].
    destruct j as [|j]; [reflexivity|].
    cbn [replicate app drop]. apply IH. lia.
Qed.

(** A final component with a character other than a dot before its last
    dot splits at that dot. *)
Lemma _splitext_name (pre name ext : chars) (c : ascii) :
  pre = [] ∨ last pre = Some sep →
  sep ∉ name → c ∈ name → c ≠ extsep →
  extsep ∉ ext → sep ∉ ext →
  _splitext (pre ++ name ++ extsep :: ext) = (pre ++ name, extsep :: ext).
Proof.
  intros Hpre Hname Hc Hcdot Hdot Hsep. unfold _splitext.
  assert (Hs : rfind sep (pre ++ name ++ extsep :: ext) = Z.of_nat (length pre) - 1).
  { apply rfind_sep_after_dir; [exact Hpre|].
    intros Hin. apply elem_of_app in Hin as [Hin|Hin]; [auto|].
    apply elem_of_cons in Hin as [Hin|Hin]; [discriminate | auto]. }
  assert (Hd : rfind extsep (pre ++ name ++ extsep :: ext)
               = Z.of_nat (length pre) + Z.of_nat (length name)).
  { rewrite app_assoc, SplitFacts.rfind_last by exact Hdot.
    rewrite length_app. lia. }
  rewrite Hs, Hd.
  apply list_elem_of_lookup in Hc as [j Hj].
  pose proof (lookup_lt_Some _ _ _ Hj) as Hlt.
  destruct (Z.ltb_spec (Z.of_nat (length pre) - 1)
              (Z.of_nat (length pre) + Z.of_nat (length name))); [|lia].
  rewrite (_splitext_loop_found _ _ _ _ j).
  - unfold slice_to, slice_from.
    rewrite <- Nat2Z.inj_add, Nat2Z.id.
    rewrite app_assoc.
    rewrite take_app_length' by (rewrite length_app; reflexivity).
    rewrite drop_app_length' by (rewrite length_app; reflexivity).
    reflexivity.
  - lia.
  - replace (Z.of_nat (length pre) - 1 + 1 + Z.of_nat j)
      with (Z.of_nat (length pre) + Z.of_nat j) by lia.
    rewrite slice1_app.
    rewrite drop_app_le by lia.
    rewrite (drop_S _ c _ Hj). cbn [app take].
    intros [= ->]. contradiction.
Qed.

End NameFacts.

(** X13.  A file whose last path component is a run of dots followed by
    text without a dot ([README], [.pdf], [..txt]) has no extension for the
    dispatch: [file_ext_of] is empty, no loader is selected, and when the
    file exists the iteration only prints that the type is unsupported. *)
Theorem dotfile_has_no_extension (L : Library) (pre rest : PyStr.chars) (k : nat)
    (all_chunks : list Document) (st : state L) :
  pre = [] ∨ last pre = Some OsPath.sep →
  OsPath.extsep ∉ rest → OsPath.sep ∉ rest →
  let file_path := PyStr.to_string (pre ++ replicate k OsPath.extsep ++ rest) in
  file_ext_of file_path = ""%string ∧
  select_loader (file_ext_of file_path) = None ∧
  (is_Some (disk st !! file_path) →
   process_file file_path all_chunks st
   = (st, [Print (MsgProcessing file_path); Print (MsgUnsupported "" file_path)],
      Ok all_chunks)).
Proof.
  intros Hpre Hdot Hsep file_path.
  assert (Hext : file_ext_of file_path = ""%string).
  { unfold file_ext_of, OsPath.splitext, PyStr.lower, file_path. cbn [fst snd].
    rewrite !CaseFold.of_to_string.
    rewrite (NameFacts._splitext_dotfile pre rest k Hpre Hdot Hsep). reflexivity. }
  split; [exact Hext|]. rewrite Hext. split; [reflexivity|].
  intros [content Hfile].
  rewrite process_file_run. unfold file_chunks, file_message.
  rewrite Hfile, Hext. cbn [select_loader String.eqb]. rewrite app_nil_r. reflexivity.
Qed.

Lemma dotfile_has_no_extension_witness :
  let st : state ListStore.lib :=
    mkState None (<["/up/.pdf"%string := ListStore.FileText "hidden"]> ∅) in
  (PyStr.of_string "/up/" = [] ∨ last (PyStr.of_string "/up/") = Some OsPath.sep) ∧
  (OsPath.extsep ∉ PyStr.of_string "pdf") ∧
  (OsPath.sep ∉ PyStr.of_string "pdf") ∧
  file_ext_of "/up/.pdf" = ""%string ∧
  (process_file "/up/.pdf" [] st).1.2
  = [Print (MsgProcessing "/up/.pdf"); Print (MsgUnsupported "" "/up/.pdf")].
Proof.
  intros st.
  assert (Hpre : PyStr.of_string "/up/" = [] ∨
                 last (PyStr.of_string "/up/") = Some OsPath.sep) by (right; reflexivity).
  assert (Hdot : OsPath.extsep ∉ PyStr.of_string "pdf").
  { intros Hin. apply list_elem_of_In in Hin. cbn in Hin. intuition discriminate. }
  assert (Hsep : OsPath.sep ∉ PyStr.of_string "pdf").
  { intros Hin. apply list_elem_of_In in Hin. cbn in Hin. intuition discriminate. }
  pose proof (dotfile_has_no_extension ListStore.lib (PyStr.of_string "/up/")
                (PyStr.of_string "pdf") 1 [] st Hpre Hdot Hsep) as (Hext & _ & Hrun).
  split; [exact Hpre|]. split; [exact Hdot|]. split; [exact Hsep|].
  split; [exact Hext|].
  assert (Hfile : is_Some (disk st !! "/up/.pdf"%string))
    by (eexists; apply lookup_insert_eq).
  exact (f_equal (λ r, r.1.2) (Hrun Hfile)).
Defined.

(** X14.  For a file whose last component is a name, holding at least one
    character other than a dot, followed by a dot and dot-free text,
    [splitext] cuts at the last dot, and a loader is selected exactly when
    that text is [pdf], [txt] or [docx] up to the case of its letters.
    Earlier dots in the name and dots in the directory part play no role.
    When the text after the last dot is ASCII, the extension the dispatch
    compares and prints is the dot followed by that text with [A]-[Z] turned
    into [a]-[z]. *)
Theorem extension_is_text_after_last_dot (pre name ext : PyStr.chars) (c : ascii) :
  pre = [] ∨ last pre = Some OsPath.sep →
  OsPath.sep ∉ name → c ∈ name → c ≠ OsPath.extsep →
  OsPath.extsep ∉ ext → OsPath.sep ∉ ext →
  let file_path := PyStr.to_string (pre ++ name ++ OsPath.extsep :: ext) in
  OsPath.splitext file_path
  = (PyStr.to_string (pre ++ name), PyStr.to_string (OsPath.extsep :: ext)) ∧
  (is_Some (select_loader (file_ext_of file_path)) ↔
   PyStr.lower_chars ext = PyStr.of_string "pdf" ∨
   PyStr.lower_chars ext = PyStr.of_string "txt" ∨
   PyStr.lower_chars ext = PyStr.of_string "docx") ∧
  (Forall (λ x : ascii, (PySpace.byte x < 128)%nat) ext →
   file_ext_of file_path = PyStr.to_string (OsPath.extsep :: PyStr.lower_chars ext)).
Proof.
  intros Hpre Hname Hc Hcdot Hdot Hsep file_path.
  assert (Hsplit : OsPath.splitext file_path
                   = (PyStr.to_string (pre ++ name),
                      PyStr.to_string (OsPath.extsep :: ext))).
  { unfold OsPath.splitext, file_path. rewrite CaseFold.of_to_string.
    rewrite (NameFacts._splitext_name pre name ext c Hpre Hname Hc Hcdot Hdot Hsep).
    reflexivity. }
  assert (Hext : file_ext_of file_path
                 = PyStr.to_string (OsPath.extsep :: PyStr.lower_chars ext)).
  { unfold file_ext_of. rewrite Hsplit. cbn [snd]. unfold PyStr.lower.
    rewrite CaseFold.of_to_string. reflexivity. }
  split; [exact Hsplit|]. split; [|intros _; exact Hext].
  pose proof (select_loader_none (file_ext_of file_path)) as Hnone.
  assert (Hsupp : supported_ext (file_ext_of file_path) ↔
                  PyStr.lower_chars ext = PyStr.of_string "pdf" ∨
                  PyStr.lower_chars ext = PyStr.of_string "txt" ∨
                  PyStr.lower_chars ext = PyStr.of_string "docx").
  { unfold supported_ext. rewrite Hext.
    assert (Hiff : ∀ s : string,
              PyStr.to_string (OsPath.extsep :: PyStr.lower_chars ext)
              = String OsPath.extsep s ↔ PyStr.lower_chars ext = PyStr.of_string s).
    { intros s. split.
      - intros [= Heq]. rewrite <- Heq. symmetry. apply CaseFold.of_to_string.
      - intros ->. unfold PyStr.to_string. cbn [string_of_list_ascii].
        f_equal. apply CaseFold.to_of_string. }
    rewrite <- !Hiff. reflexivity. }
  rewrite <- Hsupp.
  destruct (select_loader (file_ext_of file_path)) as [ld|].
  - split; [|eauto]. intros _.
    destruct (decide (supported_ext (file_ext_of file_path))) as [Hs|Hs]; [exact Hs|].
    apply Hnone in Hs. discriminate.
  - split; [intros [? ?]; discriminate|].
    intros Hs. exfalso. apply (proj1 Hnone); [reflexivity | exact Hs].
Qed.

Lemma extension_is_text_after_last_dot_witness :
  let pre := PyStr.of_string "/srv/up.loads/" in
  let name := PyStr.of_string "report.v2" in
  let ext := PyStr.of_string "PDF" in
  last pre = Some OsPath.sep ∧
  Forall (λ x : ascii, (PySpace.byte x < 128)%nat) ext ∧
  OsPath.splitext "/srv/up.loads/report.v2.PDF"
  = ("/srv/up.loads/report.v2"%string, ".PDF"%string) ∧
  is_Some (select_loader (file_ext_of "/srv/up.loads/report.v2.PDF")) ∧
  file_ext_of "/srv/up.loads/report.v2.PDF" = ".pdf"%string.
Proof.
  intros pre name ext.
  assert (Hpre : pre = [] ∨ last pre = Some OsPath.sep) by (right; reflexivity).
  assert (Hname : OsPath.sep ∉ name).
  { intros Hin. apply list_elem_of_In in Hin. cbn in Hin. intuition discriminate. }
  assert (Hc : "r"%char ∈ name) by apply list_elem_of_here.
  assert (Hcdot : "r"%char ≠ OsPath.extsep) by discriminate.
  assert (Hdot : OsPath.extsep ∉ ext).
  { intros Hin. apply list_elem_of_In in Hin. cbn in Hin. intuition discriminate. }
  assert (Hsep : OsPath.sep ∉ ext).
  { intros Hin. apply list_elem_of_In in Hin. cbn in Hin. intuition discriminate. }
  assert (Hascii : Forall (λ x : ascii, (PySpace.byte x < 128)%nat) ext).
  { repeat constructor; vm_compute; lia. }
  pose proof (extension_is_text_after_last_dot pre name ext "r"%char
                Hpre Hname Hc Hcdot Hdot Hsep) as (Hsplit & Hld & Hext).
  split; [reflexivity|]. split; [exact Hascii|]. split; [exact Hsplit|].
  split; [apply Hld; left; reflexivity | exact (Hext Hascii)].
Defined.

(** ** The index path *)

Module IndexPathFacts.
Import PyStr OsPath.

Lemma rstrip_keep (c x : ascii) (l : chars) : x ≠ c → rstrip c (l ++ [x]) = l ++ [x].
Proof.
  intros Hx. induction l as [|y l IH]; cbn [app rstrip].
  - destruct (Ascii.eqb_spec x c); [contradiction | reflexivity].
  - rewrite IH. destruct (l ++ [x]) eqn:Heq; [|reflexivity].
    destruct l; discriminate.
Qed.

Lemma rstrip_drop (c : ascii) (l : chars) : rstrip c (l ++ [c]) = rstrip c l.
Proof.
  induction l as [|y l IH]; cbn [app rstrip].
  - rewrite Ascii.eqb_refl. reflexivity.
  - rewrite IH. reflexivity.
Qed.

(** [dirname] of a path that ends with a separator-free component after a
    directory part whose last character is not the separator. *)
Lemma dirname_chars_of_child (a b : chars) (x : ascii) :
  x ≠ sep → sep ∉ b →
  dirname_chars ((a ++ [x]) ++ sep :: b) = a ++ [x].
Proof.
  intros Hx Hb. unfold dirname_chars.
  rewrite SplitFacts.rfind_last by exact Hb.
  unfold slice_to.
  replace (Z.to_nat (Z.of_nat (length (a ++ [x])) + 1)) with (length (a ++ [x]) + 1)%nat
    by lia.
  change ((a ++ [x]) ++ sep :: b) with ((a ++ [x]) ++ [sep] ++ b).
  rewrite take_app_add. cbn [take app]. rewrite take_0.
  unfold chars_eqb.
  case_bool_decide as Hnil; [destruct a; discriminate|].
  case_bool_decide as Hall.
  - exfalso.
    assert (Hin : x ∈ (a ++ [x]) ++ [sep]).
    { apply elem_of_app. left. apply elem_of_app. right. apply list_elem_of_here. }
    rewrite Hall in Hin. apply elem_of_replicate_inv in Hin. contradiction.
  - cbn [negb andb]. rewrite rstrip_drop. apply rstrip_keep. exact Hx.
Qed.

Lemma full_path_chars (module_file : string) :
  ∃ y : chars,
    of_string (join (dirname module_file) [".."%string; "vector_store"%string])
    = (y ++ sep :: of_string "vector_stor") ++ ["e"%char] ∧
    of_string (full_vector_store_path module_file)
    = ((y ++ sep :: of_string "vector_stor") ++ ["e"%char]) ++ sep :: of_string "faiss_index".
Proof.
  unfold full_vector_store_path. rewrite !PathFacts.join_two.
  destruct (PathFacts.join_step_relative (of_string (dirname module_file))
              (of_string "..") eq_refl) as (x & Hx & _).
  rewrite Hx.
  assert (Hlast : last (x ++ of_string "..") = Some "."%char)
    by (rewrite last_app; reflexivity).
  exists (x ++ of_string "..").
  rewrite !(PathFacts.join_step_after _ _ "."%char Hlast) by discriminate.
  change (startswith sep (of_string "vector_store")) with false.
  change (startswith sep (of_string VECTOR_STORE_PATH)) with false.
  cbv iota.
  change (of_string "vector_store") with (of_string "vector_stor" ++ ["e"%char]).
  change (of_string VECTOR_STORE_PATH)
    with ((of_string "vector_stor" ++ ["e"%char]) ++ sep :: of_string "faiss_index").
  split; rewrite <- !app_assoc; reflexivity.
Qed.

End IndexPathFacts.

(** X15.  The directory [_save_vector_store] creates is the parent of the
    path it saves to: [dirname] of the index path is the [vector_store]
    folder beside the module's directory, and the index path is that folder
    followed by [/faiss_index].  The index path itself has no extension, so
    the handler never selects a loader for it. *)
Theorem index_path_and_its_directory (module_file : string) :
  let full := full_vector_store_path module_file in
  OsPath.dirname full
  = OsPath.join (OsPath.dirname module_file) [".."%string; "vector_store"%string] ∧
  full = (OsPath.dirname full +:+ "/faiss_index")%string ∧
  select_loader (file_ext_of full) = None.
Proof.
  intros full. subst full.
  destruct (IndexPathFacts.full_path_chars module_file) as (y & Hdir & Hfull).
  assert (Hname : OsPath.sep ∉ PyStr.of_string "faiss_index").
  { intros Hin. apply list_elem_of_In in Hin. cbn in Hin. intuition discriminate. }
  assert (Hnodot : OsPath.extsep ∉ PyStr.of_string "faiss_index").
  { intros Hin. apply list_elem_of_In in Hin. cbn in Hin. intuition discriminate. }
  assert (Hdirname : OsPath.dirname (full_vector_store_path module_file)
                     = OsPath.join (OsPath.dirname module_file)
                         [".."%string; "vector_store"%string]).
  { unfold OsPath.dirname at 1. rewrite Hfull.
    rewrite IndexPathFacts.dirname_chars_of_child by (discriminate || exact Hname).
    rewrite <- Hdir. apply CaseFold.to_of_string. }
  split; [exact Hdirname|]. split.
  - rewrite Hdirname.
    rewrite <- (CaseFold.to_of_string (full_vector_store_path module_file)), Hfull.
    rewrite <- (CaseFold.to_of_string (OsPath.join _ _)), Hdir.
    change (?a ++ OsPath.sep :: PyStr.of_string "faiss_index")
      with (a ++ PyStr.of_string "/faiss_index").
    rewrite PathFacts.to_string_app. reflexivity.
  - assert (Hext : file_ext_of (full_vector_store_path module_file) = ""%string).
    { unfold file_ext_of, OsPath.splitext, PyStr.lower. cbn [fst snd].
      rewrite Hfull.
      change (?a ++ OsPath.sep :: PyStr.of_string "faiss_index")
        with (a ++ [OsPath.sep] ++ replicate 0 OsPath.extsep
                ++ PyStr.of_string "faiss_index").
      rewrite app_assoc.
      rewrite (NameFacts._splitext_dotfile _ _ 0); [reflexivity | | exact Hnodot | exact Hname].
      right. apply last_snoc. }
    rewrite Hext. reflexivity.
Qed.

(** * The save step and the upload loop, once more *)

(** X16.  [_save_vector_store] catches what [makedirs] and [save_local]
    raise and never replaces the handler's index.  Without an index it calls
    nothing and prints nothing.  With one it calls [makedirs] first, on the
    parent of the index path; when [makedirs] raises it stops there, without
    calling [save_local], and prints the save error; when [save_local]
    raises it prints the save error; when both complete, what [save_local]
    produced is stored at the index path and the success line is printed. *)
Theorem save_vector_store_steps (L : Library) (module_file : string)
    (st : state L) :
  let full := full_vector_store_path module_file in
  let r := _save_vector_store module_file st in
  r.2 = Ok tt ∧
  vector_store r.1.1 = vector_store st ∧
  (vector_store st = None → r.1.1 = st ∧ r.1.2 = []) ∧
  (is_Some (vector_store st) →
   head (calls r.1.2) = Some (CMakedirs (OsPath.dirname full))) ∧
  (∀ e : exn,
     is_Some (vector_store st) →
     makedirs L (OsPath.dirname full) = Some e →
     r.1.2 = [Call (CMakedirs (OsPath.dirname full)); Print (MsgSaveError full e)]) ∧
  (∀ (vs : Index L) (left_behind : option (Blob L)) (e : exn),
     vector_store st = Some vs →
     makedirs L (OsPath.dirname full) = None →
     save_local L vs = SaveFailed left_behind e →
     r.1.2 = [Call (CMakedirs (OsPath.dirname full)); Call (CSaveLocal full);
              Print (MsgSaveError full e)]) ∧
  (∀ (vs : Index L) (b : Blob L),
     vector_store st = Some vs →
     makedirs L (OsPath.dirname full) = None →
     save_local L vs = Saved b →
     disk r.1.1 !! full = Some b ∧
     r.1.2 = [Call (CMakedirs (OsPath.dirname full)); Call (CSaveLocal full);
              Print (MsgSaved full)]).
Proof.
  intros full r. subst r full.
  split.
  { destruct (save_total module_file st) as (d & out & ->). reflexivity. }
  split.
  { destruct (save_total module_file st) as (d & out & ->). reflexivity. }
  split.
  { intros Hnone. rewrite (save_nothing module_file st Hnone). auto. }
  split; [apply save_calls|].
  split.
  { intros e [vs Hvs] Hdir.
    rewrite (save_makedirs_raise module_file st vs e Hvs Hdir). reflexivity. }
  split.
  { intros vs lb e Hvs Hdir Hsave.
    rewrite (save_local_raise module_file st vs lb e Hvs Hdir Hsave). reflexivity. }
  intros vs b Hvs Hdir Hsave.
  rewrite (save_ok module_file st vs b Hvs Hdir Hsave). project.
  split; [apply lookup_insert_eq | reflexivity].
Qed.

Example save_vector_store_runs :
  let refused := @mkState ListStore.lib (Some [ListStore.paris]) ListStore.uploads in
  (_save_vector_store "/readonly/app/rag_handler.py" refused).1.2
  = [Call (CMakedirs "/readonly/app/../vector_store");
     Print (MsgSaveError "/readonly/app/../vector_store/faiss_index" "PermissionError")] ∧
  (_save_vector_store ListStore.module_file refused).1.2
  = [Call (CMakedirs "/srv/rag_app/app/../vector_store");
     Call (CSaveLocal "/srv/rag_app/app/../vector_store/faiss_index");
     Print (MsgSaved "/srv/rag_app/app/../vector_store/faiss_index")].
Proof. split; vm_compute; reflexivity. Qed.

Section UploadIsolation.
Context {L : Library}.
Variable main_file : string.

Lemma for_files_app (l1 l2 : list (Main.UploadFile (Blob L)))
    (lists : list string * list string) (st : state L) :
  Main.for_files main_file (l1 ++ l2) lists st
  = match Main.for_files main_file l1 lists st with
    | (st1, out1, lists1) =>
        match Main.for_files main_file l2 lists1 st1 with
        | (st2, out2, lists2) => (st2, out1 ++ out2, lists2)
        end
    end.
Proof.
  revert lists st. induction l1 as [|f l1 IH]; intros lists st.
  - cbn [app Main.for_files].
    destruct (Main.for_files main_file l2 lists st) as [[st2 out2] lists2]. reflexivity.
  - cbn [app Main.for_files].
    destruct (Main.save_file main_file f lists st) as [[st0 out0] lists0].
    rewrite IH.
    destruct (Main.for_files main_file l1 lists0 st0) as [[st1 out1] lists1].
    destruct (Main.for_files main_file l2 lists1 st1) as [[st2 out2] lists2].
    rewrite app_assoc. reflexivity.
Qed.

(** The iteration for a file without a filename, or whose write raised
    before anything was written. *)
Lemma save_file_passed_over (bad : Main.UploadFile (Blob L)) (m : Main.main_message)
    (lists : list string * list string) (st : state L) :
  (Main.no_filename bad = true ∧ m = Main.WarnNoFilename) ∨
  (∃ name e, Main.filename bad = Some name ∧ name ≠ ""%string ∧
             Main.write bad = SaveFailed None e ∧ m = Main.ErrSaving name e) →
  Main.save_file main_file bad lists st = (st, [Main.MainPrint m], lists).
Proof.
  unfold Main.save_file.
  intros [[-> ->] | (name & e & Hname & Hne & Hwrite & ->)]; [reflexivity|].
  unfold Main.no_filename. rewrite Hname, Hwrite.
  destruct (String.eqb_spec name ""); [contradiction|].
  cbn [default from_option id]. cbv zeta. rewrite state_eta. reflexivity.
Qed.

Lemma for_files_passed_over (before after : list (Main.UploadFile (Blob L)))
    (bad : Main.UploadFile (Blob L)) (m : Main.main_message) (st : state L) :
  (Main.no_filename bad = true ∧ m = Main.WarnNoFilename) ∨
  (∃ name e, Main.filename bad = Some name ∧ name ≠ ""%string ∧
             Main.write bad = SaveFailed None e ∧ m = Main.ErrSaving name e) →
  ∃ st2 out1 out2 lists2,
    Main.for_files main_file (before ++ after) ([], []) st = (st2, out1 ++ out2, lists2) ∧
    Main.for_files main_file (before ++ bad :: after) ([], []) st
    = (st2, out1 ++ Main.MainPrint m :: out2, lists2).
Proof.
  intros Hbad. rewrite !for_files_app.
  destruct (Main.for_files main_file before ([], []) st) as [[st1 out1] lists1].
  cbn [Main.for_files]. rewrite (save_file_passed_over bad m lists1 st1 Hbad).
  destruct (Main.for_files main_file after lists1 st1) as [[st2 out2] lists2].
  exists st2, out1, out2, lists2. split; reflexivity.
Qed.

End UploadIsolation.

(** X17.  An upload without a filename, or whose write raises before
    anything is written, does not block the others: the endpoint prints its
    line for that file and then ends in the same state, with the same handler
    events and the same answer, as for the request without that file. *)
Theorem refused_upload_does_not_block_others (L : Library)
    (main_file module_file : string) (before after : list (Main.UploadFile (Blob L)))
    (bad : Main.UploadFile (Blob L)) (m : Main.main_message) (st : state L) :
  (Main.no_filename bad = true ∧ m = Main.WarnNoFilename) ∨
  (∃ name e, Main.filename bad = Some name ∧ name ≠ ""%string ∧
             Main.write bad = SaveFailed None e ∧ m = Main.ErrSaving name e) →
  let r := Main.upload_documents main_file module_file (before ++ bad :: after) st in
  let r' := Main.upload_documents main_file module_file (before ++ after) st in
  r.1.1 = r'.1.1 ∧
  r.2 = r'.2 ∧
  Main.handler_events r.1.2 = Main.handler_events r'.1.2 ∧
  Main.MainPrint m ∈ r.1.2.
Proof.
  intros Hbad r r'. subst r r'.
  destruct (for_files_passed_over main_file before after bad m st Hbad)
    as (st2 & out1 & out2 & [saved processed] & Hwithout & Hwith).
  unfold Main.upload_documents. rewrite Hwithout, Hwith.
  destruct saved as [|p ps].
  - cbn [fst snd]. split; [reflexivity|]. split; [reflexivity|].
    split.
    + rewrite !handler_events_app. reflexivity.
    + apply elem_of_app. right. apply list_elem_of_here.
  - destruct (load_and_process_documents module_file (p :: ps) st2)
      as [[st3 out3] [u|e]]; cbn [fst snd];
      (split; [reflexivity|]); (split; [reflexivity|]); split;
      try (rewrite !handler_events_app; reflexivity);
      rewrite <- !app_assoc; apply elem_of_app; right; apply list_elem_of_here.
Qed.

Lemma refused_upload_does_not_block_others_witness :
  let good : Main.UploadFile (Blob ListStore.lib) :=
    ListStoreMain.upload "fr.txt" "The capital of France is Paris." in
  let bad : Main.UploadFile (Blob ListStore.lib) := ListStoreMain.refused "locked.txt" in
  (∃ name e, Main.filename bad = Some name ∧ name ≠ ""%string ∧
             Main.write bad = SaveFailed None e ∧
             Main.ErrSaving "locked.txt" "PermissionError" = Main.ErrSaving name e) ∧
  (Main.upload_documents ListStoreMain.main_file ListStore.module_file
     ([] ++ bad :: [good]) ListStoreMain.empty_service).2
  = (Main.upload_documents ListStoreMain.main_file ListStore.module_file
       ([] ++ [good]) ListStoreMain.empty_service).2.
Proof.
  intros good bad.
  assert (Hbad : ∃ name e, Main.filename bad = Some name ∧ name ≠ ""%string ∧
                           Main.write bad = SaveFailed None e ∧
                           Main.ErrSaving "locked.txt" "PermissionError"
                           = Main.ErrSaving name e).
  { exists "locked.txt"%string, "PermissionError"%string.
    split; [reflexivity|]. split; [discriminate|]. split; reflexivity. }
  split; [exact Hbad|].
  exact (proj1 (proj2 (refused_upload_does_not_block_others ListStore.lib
                         ListStoreMain.main_file ListStore.module_file [] [good] bad _
                         ListStoreMain.empty_service (or_intror Hbad)))).
Defined.
